(** * TinyTest: a shallow embedding of [tiny_test.hpp]

    The header defines a base class [Test] with a virtual [doTest], three
    class templates deriving from it ([SimpleTest], [PrettyTest],
    [TimedTest]) and an owning container [TestGroup].  Everything the
    library does is visible as a boolean result, as text on [std::cout] and
    as updates of the test objects, so methods are embedded as functions
    from the receiving object and the world (console, processor clock) to a
    completion, the updated object and the updated world. *)

From Stdlib Require Import Bool List String ZArith Lia Permutation.
From Stdlib Require Import Floats.
Import ListNotations.

Set Implicit Arguments.

(** ** Exceptions and completions *)

(** What a [throw] carries, as far as the two handlers of
    [Test::operator()] can tell: something derived from [std::exception]
    (with its [what()]), or anything else. *)
Inductive exception : Type :=
| std_exception (what : string)
| other_exception.

(** How the evaluation of a C++ call ends. *)
Inductive completion (A : Type) : Type :=
| Normal (a : A)
| Raised (e : exception).
Arguments Raised {A} e.

(** ** The console *)

(** [std::source_location]: only the three fields that [check] prints. *)
Record source_location : Type := {
  file_name : string;
  line : nat;
  column : nat
}.

(** One constructor per output statement of the header; the arguments are
    the values streamed into the fixed text. *)
Inductive output : Type :=
| test_banner (name : string)
    (* test "<name>" *)
| caught_exception (what : string)
    (* caught exception: <what> *)
| caught_unknown_exception
    (* caught unknown exception *)
| verdict_banner (res : bool)
    (* [OK] in green or [FAIL] in red *)
| condition_false (location : source_location)
    (* condition at <file>, line <line>:<column> evaluated to false *)
| not_equal (first first_type second second_type : string)
    (* <first> (<First>) != <second> (<Second>) *)
| float_not_equal (x y error : float)
    (* <x> != <y> with epsilon <error>, precision 4 *)
| finished_in (execution_ms : float)
    (* finished in <execution_ms>ms, precision 2 *)
| slower_than (max_runtime : float)
    (* SLOWER than given limit: <max_runtime>ms, precision 2 *)
| running_group (name : string)
    (* Running group "<name>" *)
| group_failed
    (* Group failed! *)
| failed_tests (errors total : nat).
    (* Failed <errors>/<total> tests *)

(** ** The host: <ctime> *)

(** [std::clock_t], [CLOCKS_PER_SEC] and the readings of [std::clock()] are
    the implementation's, not the header's. [std_clock n] is what the
    [n]-th call of [std::clock()] in the process returns. *)
Class Host : Type := {
  clock_t : Type;
  std_clock : nat -> clock_t;
  clock_minus : clock_t -> clock_t -> clock_t;
  clock_to_double : clock_t -> float;
  CLOCKS_PER_SEC : clock_t
}.

(** The world outside the test objects: what was written to [std::cout] so
    far, and how many times [std::clock()] was called. *)
Record world : Type := {
  cout : list output;
  clock_calls : nat
}.

(** ** Methods *)

(** A member function of a class [Self] returning [A]. *)
Definition method (Self A : Type) : Type :=
  Self -> world -> completion A * Self * world.

Definition ret {Self A : Type} (a : A) : method Self A :=
  fun self w => (Normal a, self, w).

Definition bind {Self A B : Type} (m : method Self A) (k : A -> method Self B)
  : method Self B :=
  fun self w =>
    match m self w with
    | (Normal a, self', w') => k a self' w'
    | (Raised e, self', w') => (Raised e, self', w')
    end.

Declare Scope method_scope.
Delimit Scope method_scope with method.
Notation "x <- m ;; k" := (bind m (fun x => k))
  (at level 61, m at next level, right associativity) : method_scope.
Notation "m ;; k" := (bind m (fun _ => k))
  (at level 61, right associativity) : method_scope.
Local Open Scope method_scope.

Definition throw {Self A : Type} (e : exception) : method Self A :=
  fun self w => (Raised e, self, w).

(** [try { m } catch (...) { h }], the handler receiving what was thrown. *)
Definition try_catch {Self A : Type} (m : method Self A)
    (h : exception -> method Self A) : method Self A :=
  fun self w =>
    match m self w with
    | (Normal a, self', w') => (Normal a, self', w')
    | (Raised e, self', w') => h e self' w'
    end.

(** Reading and writing data members. *)
Definition gets {Self A : Type} (field : Self -> A) : method Self A :=
  fun self w => (Normal (field self), self, w).

Definition modify {Self : Type} (f : Self -> Self) : method Self unit :=
  fun self w => (Normal tt, f self, w).

(** [std::cout << ...] *)
Definition print {Self : Type} (o : output) : method Self unit :=
  fun self w =>
    (Normal tt, self, {| cout := cout w ++ [o]; clock_calls := clock_calls w |}).

(** [std::clock()] *)
Definition clock {H : Host} {Self : Type} : method Self clock_t :=
  fun self w =>
    (Normal (std_clock (clock_calls w)), self,
     {| cout := cout w; clock_calls := S (clock_calls w) |}).

(** Calling a member function of a subobject [Part] of [Self]. *)
Definition within {Self Part A : Type} (get : Self -> Part)
    (set : Part -> Self -> Self) (m : method Part A) : method Self A :=
  fun self w =>
    match m (get self) w with
    | (c, part', w') => (c, set part' self, w')
    end.

(** The boolean a completed call delivered ([false] when it threw). *)
Definition result_of {Self : Type} (r : completion bool * Self * world) : bool :=
  match r with
  | (Normal b, _, _) => b
  | (Raised _, _, _) => false
  end.

Definition object_of {Self A : Type} (r : completion A * Self * world) : Self :=
  snd (fst r).

Definition world_of {Self A : Type} (r : completion A * Self * world) : world :=
  snd r.

Definition completion_of {Self A : Type} (r : completion A * Self * world)
  : completion A :=
  fst (fst r).

(** ** class Test *)

Module Test.

(** The interface of the base class: the data member [name_] and the pure
    virtual [doTest]. An instance is a class derived from [Test]. *)
Class Derived (T : Type) : Type := {
  name_ : T -> string;
  doTest : method T bool
}.

Definition caught {T : Type} (e : exception) : method T bool :=
  match e with
  | std_exception what => print (caught_exception what) ;; ret false
  | other_exception => print caught_unknown_exception ;; ret false
  end.

(** [bool Test::operator()()]. [res] is initialised to [false] and only
    assigned when [doTest] returns, so both handlers leave it [false]. *)
Definition call {T : Type} `{Derived T} : method T bool :=
  name <- gets name_ ;;
  print (test_banner name) ;;
  res <- try_catch doTest caught ;;
  print (verdict_banner res) ;;
  ret res.

(** [std::unique_ptr<Test>]: an object of some derived class, with its
    virtual table. *)
Record ptr : Type := make_unique {
  dynamic_type : Type;
  vtable : Derived dynamic_type;
  pointee : dynamic_type
}.

(** Calling the test behind the pointer, as the loop of [TestGroup::run]
    does. *)
Definition call_ptr : method ptr bool :=
  fun test w =>
    match @call (dynamic_type test) (vtable test) (pointee test) w with
    | (c, obj, w') => (c, @make_unique (dynamic_type test) (vtable test) obj, w')
    end.

End Test.

(** ** class SimpleTest *)

Module SimpleTest.

(** A function object: its captured state and its call operator, which
    returns a [bool] or throws and may change the captured state. The call
    is a function of the captured state alone: a function object that
    writes to [std::cout] itself, reads the clock, or shares state with
    another test is not covered. *)
Record Functor (S : Type) : Type := {
  captures : S;
  operator_call : S -> completion bool * S
}.

Record t (S : Type) : Type := {
  name_ : string;
  f_ : Functor S
}.

(** [SimpleTest(std::string name, Functor f)] *)
Definition ctor {S : Type} (name : string) (f : Functor S) : t S :=
  {| name_ := name; f_ := f |}.

(** [f_()] *)
Definition call_f {S : Type} : method (t S) bool :=
  fun self w =>
    match operator_call (f_ self) (captures (f_ self)) with
    | (c, s) =>
        (c, {| name_ := name_ self;
               f_ := {| captures := s;
                        operator_call := operator_call (f_ self) |} |}, w)
    end.

(** [bool doTest() override { return f_(); }] *)
Definition doTest {S : Type} : method (t S) bool := call_f.

#[global] Instance derived (S : Type) : Test.Derived (t S) :=
  {| Test.name_ := @name_ S; Test.doTest := doTest |}.

End SimpleTest.

(** ** class PrettyTest *)

(** [first == second] for operands of types [First] and [Second]. *)
Class EqualityComparable (First Second : Type) : Type :=
  equal_to : First -> Second -> bool.

(** The concept [Printable]: what [ostr << item] writes. *)
Class Printable (T : Type) : Type :=
  inserted : T -> string.

(** [type_name<T>()]: the compiler's spelling of [T], cut out of
    [__PRETTY_FUNCTION__]. *)
Class TypeName (T : Type) : Type :=
  type_name : string.
Arguments type_name T {TypeName}.

Module PrettyTest.

(** What one call [f_(test)] of the user's function object does, seen from
    the test object: the member functions it calls on [test], each
    continuation receiving the returned [bool], until it returns or
    throws, leaving its captured state [s]. Output and clock readings of
    the function object's own, and state it shares with another test, are
    not covered. *)
Inductive body (S : Type) : Type :=
| Return (s : S)
| Throw (e : exception) (s : S)
| Check (condition : bool) (location : source_location) (k : bool -> body S)
| Fail (location : source_location) (k : bool -> body S)
| EqualsPrintable (First Second : Type)
    (eq : EqualityComparable First Second)
    (pf : Printable First) (ps : Printable Second)
    (nf : TypeName First) (ns : TypeName Second)
    (first : First) (second : Second)
    (location : source_location) (k : bool -> body S)
| Equals (First Second : Type)
    (eq : EqualityComparable First Second)
    (first : First) (second : Second)
    (location : source_location) (k : bool -> body S)
| FloatEquals (x y error : float)
    (location : source_location) (k : bool -> body S).

Record Functor (S : Type) : Type := {
  captures : S;
  operator_call : S -> body S
}.

Record t (S : Type) : Type := {
  name_ : string;
  f_ : Functor S;
  result_ : bool
}.

(** [PrettyTest(std::string name, Functor f)], with the default member
    initializer [bool result_ = true]. *)
Definition ctor {S : Type} (name : string) (f : Functor S) : t S :=
  {| name_ := name; f_ := f; result_ := true |}.

Section Members.
Context {S : Type}.

Definition set_result_ (b : bool) (self : t S) : t S :=
  {| name_ := name_ self; f_ := f_ self; result_ := b |}.

Definition set_captures (s : S) (self : t S) : t S :=
  {| name_ := name_ self;
     f_ := {| captures := s; operator_call := operator_call (f_ self) |};
     result_ := result_ self |}.

(** [bool check(bool condition, std::source_location location)] *)
Definition check (condition : bool) (location : source_location)
  : method (t S) bool :=
  modify (fun self => set_result_ (result_ self && condition) self) ;;
  (if Bool.eqb condition false
   then print (condition_false location)
   else ret tt) ;;
  ret condition.

(** [equals(First& first, Second&& second, location)], the overload
    constrained by [Printable<First> && Printable<Second>]. *)
Definition equals_printable {First Second : Type}
    `{EqualityComparable First Second}
    `{Printable First} `{Printable Second}
    `{TypeName First} `{TypeName Second}
    (first : First) (second : Second) (location : source_location)
  : method (t S) bool :=
  result <- check (equal_to first second) location ;;
  (if negb result
   then print (not_equal (inserted first) (type_name First)
                         (inserted second) (type_name Second))
   else ret tt) ;;
  ret result.

(** [equals(auto&& first, auto&& second, location)] *)
Definition equals {First Second : Type}
    `{EqualityComparable First Second}
    (first : First) (second : Second) (location : source_location)
  : method (t S) bool :=
  check (equal_to first second) location.

(** [float_equals(Float x, Float y, Float error, location)], at
    [Float = double]. *)
Definition float_equals (x y error : float) (location : source_location)
  : method (t S) bool :=
  result <- check (abs (x - y) <? error)%float location ;;
  (if negb result
   then print (float_not_equal x y error)
   else ret tt) ;;
  ret result.

(** [bool fail(location)] *)
Definition fail (location : source_location) : method (t S) bool :=
  check false location.

(** Running the function object's call on [*this]. *)
Fixpoint exec (b : body S) : method (t S) unit :=
  match b with
  | Return s => modify (set_captures s)
  | Throw e s => modify (set_captures s) ;; throw e
  | Check condition location k =>
      r <- check condition location ;; exec (k r)
  | Fail location k =>
      r <- fail location ;; exec (k r)
  | EqualsPrintable eq pf ps nf ns first second location k =>
      r <- equals_printable first second location ;; exec (k r)
  | Equals eq first second location k =>
      r <- equals first second location ;; exec (k r)
  | FloatEquals x y error location k =>
      r <- float_equals x y error location ;; exec (k r)
  end.

(** [bool doTest() override]: call [f_] on this object, then return
    [result_]. *)
Definition doTest : method (t S) bool :=
  f <- gets (@f_ S) ;;
  exec (operator_call f (captures f)) ;;
  gets (@result_ S).

(** The conditions a call of the function object hands to [check], in
    the order of the calls; [fail], [equals] and [float_equals] each
    hand over one. *)
Fixpoint conditions (b : body S) : list bool :=
  match b with
  | Return _ | Throw _ _ => []
  | Check condition _ k => condition :: conditions (k condition)
  | Fail _ k => false :: conditions (k false)
  | EqualsPrintable eq _ _ _ _ first second _ k =>
      equal_to first second :: conditions (k (equal_to first second))
  | Equals eq first second _ k =>
      equal_to first second :: conditions (k (equal_to first second))
  | FloatEquals x y error _ k =>
      (abs (x - y) <? error)%float
        :: conditions (k (abs (x - y) <? error)%float)
  end.

(** How the call ends, and the captured state it leaves. *)
Fixpoint ending (b : body S) : completion unit :=
  match b with
  | Return _ => Normal tt
  | Throw e _ => Raised e
  | Check condition _ k => ending (k condition)
  | Fail _ k => ending (k false)
  | EqualsPrintable eq _ _ _ _ first second _ k =>
      ending (k (equal_to first second))
  | Equals eq first second _ k => ending (k (equal_to first second))
  | FloatEquals x y error _ k => ending (k (abs (x - y) <? error)%float)
  end.

Fixpoint captures_left (b : body S) : S :=
  match b with
  | Return s => s
  | Throw _ s => s
  | Check condition _ k => captures_left (k condition)
  | Fail _ k => captures_left (k false)
  | EqualsPrintable eq _ _ _ _ first second _ k =>
      captures_left (k (equal_to first second))
  | Equals eq first second _ k =>
      captures_left (k (equal_to first second))
  | FloatEquals x y error _ k =>
      captures_left (k (abs (x - y) <? error)%float)
  end.

(** The call the function object of [self] makes when run now. *)
Definition next_call (self : t S) : body S :=
  operator_call (f_ self) (captures (f_ self)).

End Members.

#[global] Instance derived (S : Type) : Test.Derived (t S) :=
  {| Test.name_ := @name_ S; Test.doTest := doTest |}.

End PrettyTest.

(** The conjunction of a sequence of check results, starting from [true]. *)
Definition conjunction (checks : list bool) : bool :=
  fold_left andb checks true.

(** ** struct TimedTest *)

(** [double(n)] for an integer [n]: the nearest binary64 value. *)
Definition double_of_Z (n : Z) : float :=
  SF2Prim (binary_normalize prec emax n 0 false).

Module TimedTest.

(** [TimedTest<ActualTest, Functor>] derives from
    [Parent = ActualTest<Functor>] and adds one data member. *)
Record t (Parent : Type) : Type := {
  parent : Parent;
  max_runtime_ : float
}.

(** The inherited constructors ([using Parent::Parent]), with the default
    member initializer of [max_runtime_]. *)
Definition inherited_ctor {Parent : Type} (p : Parent) : t Parent :=
  {| parent := p; max_runtime_ := infinity |}.

(** [TimedTest(double milliseconds, Args&&... args)] *)
Definition ctor {Parent : Type} (milliseconds : float) (p : Parent) : t Parent :=
  {| parent := p; max_runtime_ := milliseconds |}.

Section Members.
Context {H : Host} {Parent : Type} `{Test.Derived Parent}.

Definition set_parent (p : Parent) (self : t Parent) : t Parent :=
  {| parent := p; max_runtime_ := max_runtime_ self |}.

(** [double(finish - start) * 1000.0 / CLOCKS_PER_SEC] *)
Definition execution_ms (start finish : clock_t) : float :=
  (clock_to_double (clock_minus finish start) * 1000
     / clock_to_double CLOCKS_PER_SEC)%float.

(** [bool doTest() override] *)
Definition doTest : method (t Parent) bool :=
  start <- clock ;;
  result <- within (@parent Parent) set_parent Test.doTest ;;
  finish <- clock ;;
  print (finished_in (execution_ms start finish)) ;;
  max_runtime <- gets (@max_runtime_ Parent) ;;
  if (max_runtime <? execution_ms start finish)%float
  then print (slower_than max_runtime) ;; ret false
  else ret result.

End Members.

#[global] Instance derived {H : Host} (Parent : Type) `{Test.Derived Parent}
  : Test.Derived (t Parent) :=
  {| Test.name_ := fun self => Test.name_ (parent self);
     Test.doTest := doTest |}.

End TimedTest.

(** ** make_test and make_timed_test *)

(** [make_test<SimpleTest>(name, f)] *)
Definition make_simple_test {S : Type} (name : string)
    (f : SimpleTest.Functor S) : SimpleTest.t S :=
  SimpleTest.ctor name f.

(** [make_test<PrettyTest>(name, f)] *)
Definition make_pretty_test {S : Type} (name : string)
    (f : PrettyTest.Functor S) : PrettyTest.t S :=
  PrettyTest.ctor name f.

(** [make_timed_test<ActualTest>(name, f)]: no limit given. *)
Definition make_timed_test {Parent : Type} (actual : Parent)
  : TimedTest.t Parent :=
  TimedTest.inherited_ctor actual.

(** [make_timed_test<ActualTest>(time_limit, name, f)], [time_limit] a count
    of microseconds. *)
Definition make_timed_test_limit {Parent : Type} (time_limit : Z)
    (actual : Parent) : TimedTest.t Parent :=
  TimedTest.ctor (double_of_Z time_limit * 0x1.0624dd2f1a9fcp-10)%float actual.

(** The conversion of [std::unique_ptr<Derived>] to [std::unique_ptr<Test>]. *)
Definition as_test {T : Type} `{Test.Derived T} (obj : T) : Test.ptr :=
  Test.make_unique _ obj.

(** ** class TestGroup *)

Module TestGroup.

Record t : Type := {
  name_ : string;
  tests_ : list Test.ptr
}.

(** [TestGroup(std::string name)] *)
Definition ctor_name (name : string) : t :=
  {| name_ := name; tests_ := [] |}.

(** [void add(std::unique_ptr<Test> test)]: [tests_.push_back]. *)
Definition add (test : Test.ptr) (self : t) : t :=
  {| name_ := name_ self; tests_ := tests_ self ++ [test] |}.

(** [TestGroup(std::string name, FirstTest first, OtherTests... other)]:
    delegates to the constructor for [name, other...], then runs its own
    body [add(std::move(first))]. *)
Fixpoint ctor (name : string) (tests : list Test.ptr) : t :=
  match tests with
  | [] => ctor_name name
  | first :: other => add first (ctor name other)
  end.

Definition set_tests_ (tests : list Test.ptr) (self : t) : t :=
  {| name_ := name_ self; tests_ := tests |}.

(** The range-based [for] of [run], over the elements not yet visited;
    [errors] is the local counter, a [size_t] that never exceeds
    [tests_.size()] and so never wraps. The elements are visited by
    reference, so the vector holds the tests as their runs left them. *)
Fixpoint for_each (tests : list Test.ptr) (errors : nat)
  : world -> completion nat * list Test.ptr * world :=
  fun w =>
    match tests with
    | [] => (Normal errors, [], w)
    | test :: rest =>
        match Test.call_ptr test w with
        | (Normal result, test', w1) =>
            let errors' := if negb result then S errors else errors in
            match for_each rest errors' w1 with
            | (c, rest', w2) => (c, test' :: rest', w2)
            end
        | (Raised e, test', w1) => (Raised e, test' :: rest, w1)
        end
    end.

(** [bool run()] *)
Definition run : method t bool :=
  name <- gets name_ ;;
  print (running_group name) ;;
  errors <- within tests_ set_tests_ (fun tests => for_each tests 0) ;;
  let result := Nat.eqb errors 0 in
  (if negb result
   then print group_failed ;;
        total <- gets (fun self => List.length (tests_ self)) ;;
        print (failed_tests errors total)
   else ret tt) ;;
  ret result.

End TestGroup.

(** ** type_name *)

(** The compiler branch of [type_name]: which of [__clang__], [__GNUC__]
    and [_MSC_VER] is the first to be defined, or none of them. *)
Inductive compiler : Type :=
| clang
| gnu
| msvc
| other_compiler.

Module TypeNameOf.

(** [std::string_view::remove_prefix(n)] and [remove_suffix(n)]; the
    standard asks for [n <= size()]. *)
Definition remove_prefix (n : nat) (name : string) : string :=
  substring n (String.length name - n) name.

Definition remove_suffix (n : nat) (name : string) : string :=
  substring 0 (String.length name - n) name.

Definition prefix (c : compiler) : string :=
  match c with
  | clang => "auto type_name() [T = "
  | gnu => "constexpr auto type_name() [with T = "
  | msvc => "auto __cdecl type_name<"
  | other_compiler => ""
  end.

Definition suffix (c : compiler) : string :=
  match c with
  | clang => "]"
  | gnu => "]"
  | msvc => ">(void)"
  | other_compiler => ""
  end.

(** [type_name<T>()], given what the compiler puts into
    [__PRETTY_FUNCTION__] (or [__FUNCSIG__]) for this instance; with none
    of the three macros defined [name] stays empty. *)
Definition type_name (c : compiler) (pretty_function : string) : string :=
  let name := match c with
              | other_compiler => EmptyString
              | _ => pretty_function
              end in
  let name := remove_prefix (String.length (prefix c)) name in
  remove_suffix (String.length (suffix c)) name.

End TypeNameOf.

(** ** main *)

Module Driver.

(** The loop of [main] over the array [all_tests]: [success &=
    group.run()] calls [run] whatever [success] is. *)
Fixpoint for_each_group (groups : list TestGroup.t) (success : bool)
  : world -> completion bool * list TestGroup.t * world :=
  fun w =>
    match groups with
    | [] => (Normal success, [], w)
    | group :: rest =>
        match TestGroup.run group w with
        | (Normal result, group', w1) =>
            match for_each_group rest (success && result) w1 with
            | (c, rest', w2) => (c, group' :: rest', w2)
            end
        | (Raised e, group', w1) => (Raised e, group' :: rest, w1)
        end
    end.

(** [int main()], the receiver being the array [all_tests]. *)
Definition main : method (list TestGroup.t) Z :=
  success <- (fun groups => for_each_group groups true) ;;
  ret (if success : bool then 0%Z else 1%Z).

End Driver.

(** * Observations on runs, and the example program *)

(** A second run of a [PrettyTest] whose function object returns normally
    yields the conjunction of the checks of that second run alone: what a
    recorder created afresh for each execution would give. *)
Definition fresh_recorder_each_run {S : Type} (unit : PrettyTest.t S) : Prop :=
  forall w : world,
    let first := Test.call unit w in
    let again := object_of first in
    PrettyTest.ending (PrettyTest.next_call again) = Normal tt ->
    result_of (Test.call again (world_of first))
    = conjunction (PrettyTest.conditions (PrettyTest.next_call again)).

(** The console after [check]: one more line when the condition is false. *)
Definition after_check (condition : bool) (location : source_location)
    (w : world) : world :=
  if condition then w
  else {| cout := cout w ++ [condition_false location];
          clock_calls := clock_calls w |}.

(** The world after some more lines were written to the console. *)
Definition printed (lines : list output) (w : world) : world :=
  {| cout := cout w ++ lines; clock_calls := clock_calls w |}.

(** The world after one more call of [std::clock()]. *)
Definition clock_read (w : world) : world :=
  {| cout := cout w; clock_calls := S (clock_calls w) |}.

(** The line a handler of [Test::operator()] prints for what it caught. *)
Definition caught_line (e : exception) : output :=
  match e with
  | std_exception what => caught_exception what
  | other_exception => caught_unknown_exception
  end.

(** The lines [TimedTest::doTest] prints once its parent's [doTest] has
    returned. *)
Definition timing_lines (max_runtime execution_ms : float) : list output :=
  finished_in execution_ms
    :: (if (max_runtime <? execution_ms)%float
        then [slower_than max_runtime] else []).

(** The user's function object throws [e] when the test is run: the
    function object of a [SimpleTest] or of a [PrettyTest], or that of the
    parent of a [TimedTest]. *)
Inductive functor_raises {H : Host} (e : exception)
  : forall T : Type, Test.Derived T -> T -> Prop :=
| simple_raises : forall (S : Type) (self : SimpleTest.t S) (s : S),
    SimpleTest.operator_call (SimpleTest.f_ self)
      (SimpleTest.captures (SimpleTest.f_ self)) = (Raised e, s) ->
    functor_raises e (SimpleTest.derived S) self
| pretty_raises : forall (S : Type) (self : PrettyTest.t S),
    PrettyTest.ending (PrettyTest.next_call self) = Raised e ->
    functor_raises e (PrettyTest.derived S) self
| timed_raises : forall (Parent : Type) (D : Test.Derived Parent)
                        (self : TimedTest.t Parent),
    functor_raises e D (TimedTest.parent self) ->
    functor_raises e (@TimedTest.derived H Parent D) self.

(** The console shows an elapsed-time line. *)
Definition reports_elapsed_time (w : world) : Prop :=
  exists ms : float, In (finished_in ms) (cout w).

(** The names on the test banners of a console, in the order in which they
    were printed: the order in which the tests were run. *)
Fixpoint banners (console : list output) : list string :=
  match console with
  | [] => []
  | test_banner name :: rest => name :: banners rest
  | _ :: rest => banners rest
  end.

(** The tests of a group run one after the other, each exactly once, each
    in the world its predecessor left: the results in order, the tests as
    their runs left them, and the final world. *)
Fixpoint each_once (tests : list Test.ptr) (w : world)
  : list bool * list Test.ptr * world :=
  match tests with
  | [] => ([], [], w)
  | test :: rest =>
      let r := Test.call_ptr test w in
      match each_once rest (world_of r) with
      | (results, rest', w') => (result_of r :: results, object_of r :: rest', w')
      end
  end.

(** The number of tests that returned [false]. *)
Definition failures (results : list bool) : nat :=
  List.length (filter negb results).

(** The number of lines on a console that report a false condition. *)
Fixpoint reported (console : list output) : nat :=
  match console with
  | [] => 0
  | condition_false _ :: rest => S (reported rest)
  | _ :: rest => reported rest
  end.

(** [doTest] of a class only adds lines to the console, and none of them
    is the banner of a test. *)
Definition appends {T : Type} (D : Test.Derived T) : Prop :=
  forall (self : T) (w : world),
    exists lines : list output,
      cout (world_of (Test.doTest self w)) = cout w ++ lines
      /\ banners lines = [].

Definition ptr_appends (test : Test.ptr) : Prop :=
  appends (Test.vtable test).

(** The name on the banner of the test behind a pointer. *)
Definition ptr_name (test : Test.ptr) : string :=
  @Test.name_ _ (Test.vtable test) (Test.pointee test).

(** A check that holds leaves the world as it is; one that fails prints
    [lines]. *)
Definition diagnosed (condition : bool) (lines : list output) (w : world)
  : world :=
  if condition then w else printed lines w.

(** A binary64 value other than NaN. *)
Definition is_number (x : spec_float) : bool :=
  match x with
  | S754_nan => false
  | _ => true
  end.

(** A double that is finite and not zero. *)
Definition finite_nonzero (x : float) : bool :=
  match Prim2SF x with
  | S754_finite _ _ _ => true
  | _ => false
  end.

(** A host whose conversion of [clock_t] to [double] never yields NaN and
    whose [CLOCKS_PER_SEC] converts to a finite double other than zero. *)
Definition regular (H : Host) : Prop :=
  (forall t : clock_t, is_nan (clock_to_double t) = false)
  /\ finite_nonzero (clock_to_double CLOCKS_PER_SEC) = true.

(** A second call of a test returns what its first call returned. *)
Definition repeats (test : Test.ptr) : Prop :=
  forall w w' : world,
    result_of (Test.call_ptr (object_of (Test.call_ptr test w)) w')
    = result_of (Test.call_ptr test w).

(** The result of calling a test does not depend on the world it is called
    in. *)
Definition steady (test : Test.ptr) : Prop :=
  forall w w' : world,
    result_of (Test.call_ptr test w) = result_of (Test.call_ptr test w').

(** The groups of a program run one after the other, each once. *)
Fixpoint each_group_once (groups : list TestGroup.t) (w : world)
  : list bool * list TestGroup.t * world :=
  match groups with
  | [] => ([], [], w)
  | group :: rest =>
      let r := TestGroup.run group w in
      match each_group_once rest (world_of r) with
      | (results, rest', w') => (result_of r :: results, object_of r :: rest', w')
      end
  end.

(** Building a group by calls of [add], in the order of [tests]. *)
Definition added (name : string) (tests : list Test.ptr) : TestGroup.t :=
  fold_left (fun group test => TestGroup.add test group) tests
    (TestGroup.ctor_name name).

Module Example.

Local Open Scope string_scope.

(** A host in the manner of glibc on x86-64: [clock_t] is a signed
    integer, [CLOCKS_PER_SEC] is one million, and the processor time read
    by the [n]-th call of [std::clock()] is [readings n]. *)
Definition posix (readings : nat -> Z) : Host :=
  {| clock_t := Z;
     std_clock := readings;
     clock_minus := Z.sub;
     clock_to_double := double_of_Z;
     CLOCKS_PER_SEC := 1000000%Z |}.

(** Two milliseconds of processor time between consecutive readings. *)
Definition steady : Host := posix (fun n => (2000 * Z.of_nat n)%Z).

(** A clock too coarse to see the test run. *)
Definition coarse : Host := posix (fun _ => 0%Z).

Definition startup : world := {| cout := []; clock_calls := 0 |}.

Definition at_line (n : nat) : source_location :=
  {| file_name := "main.cpp"; line := n; column := 13 |}.

(** [[] { return (2 + 2) == 4; }] *)
Definition math_works : SimpleTest.Functor unit :=
  {| SimpleTest.captures := tt;
     SimpleTest.operator_call := fun s => (Normal (Nat.eqb (2 + 2) 4), s) |}.

(** [[] { throw std::runtime_error("this is expected"); return true; }] *)
Definition exception_thrown : SimpleTest.Functor unit :=
  {| SimpleTest.captures := tt;
     SimpleTest.operator_call :=
       fun s => (Raised (std_exception "this is expected"), s) |}.

(** [[] { return false; }] *)
Definition never : SimpleTest.Functor unit :=
  {| SimpleTest.captures := tt;
     SimpleTest.operator_call := fun s => (Normal false, s) |}.

(** [[](auto& test) { test.check(true); test.check(false);
    test.check(true); }] *)
Definition three_checks : PrettyTest.Functor unit :=
  {| PrettyTest.captures := tt;
     PrettyTest.operator_call := fun s =>
       PrettyTest.Check true (at_line 1) (fun _ =>
       PrettyTest.Check false (at_line 2) (fun _ =>
       PrettyTest.Check true (at_line 3) (fun _ =>
       PrettyTest.Return s))) |}.

(** [[](auto& test) { test.check(true); throw 42; }]: an error that
    carries no message. *)
Definition check_then_throw : PrettyTest.Functor unit :=
  {| PrettyTest.captures := tt;
     PrettyTest.operator_call := fun s =>
       PrettyTest.Check true (at_line 1) (fun _ =>
       PrettyTest.Throw other_exception s) |}.

(** [[runs = 0](auto& test) mutable { test.check(runs > 0); ++runs; }]:
    its only check fails in the first run and holds in every later one. *)
Definition warms_up : PrettyTest.Functor nat :=
  {| PrettyTest.captures := 0;
     PrettyTest.operator_call := fun runs =>
       PrettyTest.Check (Nat.ltb 0 runs) (at_line 1) (fun _ =>
       PrettyTest.Return (S runs)) |}.

(** [[runs = 0](auto& test) mutable { test.check(false); ++runs; }]: it
    makes the same calls in every run, and counts the runs. *)
Definition counts_runs : PrettyTest.Functor nat :=
  {| PrettyTest.captures := 0;
     PrettyTest.operator_call := fun runs =>
       PrettyTest.Check false (at_line 1) (fun _ =>
       PrettyTest.Return (S runs)) |}.

(** [[](auto& test) { std::string string; ... }]: no check at all, as in
    the two timed tests of the example program. *)
Definition push_back : PrettyTest.Functor unit :=
  {| PrettyTest.captures := tt;
     PrettyTest.operator_call := fun s => PrettyTest.Return s |}.

(** [TestGroup("test group 1", make_test<SimpleTest>("math works", ...),
    make_test<SimpleTest>("exception", ...))] *)
Definition test_group_1 : TestGroup.t :=
  TestGroup.ctor "test group 1"
    [ as_test (make_simple_test "math works" math_works);
      as_test (make_simple_test "exception" exception_thrown) ].

(** A group of three tests, one of which fails. *)
Definition one_of_three : TestGroup.t :=
  TestGroup.ctor "one of three"
    [ as_test (make_simple_test "math works" math_works);
      as_test (make_pretty_test "no checks" push_back);
      as_test (make_simple_test "never" never) ].

#[global] Instance string_eq : EqualityComparable string string := String.eqb.
#[global] Instance string_printable : Printable string := fun s => s.
#[global] Instance string_type_name : TypeName string := "std::string".

End Example.

(** * Properties *)

(** ** binary64 comparisons *)

Section Binary64.

Lemma SFcompare_antisym (a b : spec_float) :
  SFcompare a b = option_map CompOpp (SFcompare b a).
Proof.
  destruct a as [sa|sa| |sa ma ea], b as [sb|sb| |sb mb eb]; simpl;
    try (destruct sa); try (destruct sb); try reflexivity;
    rewrite (Z.compare_antisym ea eb);
    destruct (Z.compare ea eb); simpl; try reflexivity;
    rewrite (Pos.compare_cont_antisym mb ma Eq); simpl;
    destruct (Pos.compare_cont Eq ma mb); reflexivity.
Qed.

Lemma SFcompare_refl (a : spec_float) :
  SFcompare a a = Some Eq \/ SFcompare a a = None.
Proof.
  destruct a as [s|s| |s m e]; simpl; auto; destruct s; auto;
    rewrite Z.compare_refl, Pos.compare_cont_refl; auto.
Qed.

Lemma SFcompare_defined (a b : spec_float) :
  SFcompare a a = Some Eq -> SFcompare b b = Some Eq ->
  exists c, SFcompare a b = Some c.
Proof.
  destruct a as [sa|sa| |sa ma ea], b as [sb|sb| |sb mb eb]; simpl;
    intros Ha Hb; try discriminate; eauto.
Qed.

(** [x < x] is false for every double, NaN included. *)
Lemma ltb_irrefl (x : float) : (x <? x)%float = false.
Proof.
  rewrite FloatAxioms.ltb_spec. unfold SFltb.
  destruct (SFcompare_refl (Prim2SF x)) as [E|E]; rewrite E; reflexivity.
Qed.

Lemma is_nan_false (x : float) :
  is_nan x = false -> SFcompare (Prim2SF x) (Prim2SF x) = Some Eq.
Proof.
  unfold is_nan. rewrite FloatAxioms.eqb_spec. unfold SFeqb.
  destruct (SFcompare_refl (Prim2SF x)) as [E|E]; rewrite E; auto.
  discriminate.
Qed.

(** For two doubles that are numbers, [not (b < a)] is [a <= b]. *)
Lemma not_ltb_is_leb (a b : float) :
  is_nan a = false -> is_nan b = false ->
  negb (b <? a)%float = (a <=? b)%float.
Proof.
  intros Ha Hb. apply is_nan_false in Ha, Hb.
  rewrite FloatAxioms.ltb_spec, FloatAxioms.leb_spec. unfold SFltb, SFleb.
  rewrite (SFcompare_antisym (Prim2SF b) (Prim2SF a)).
  destruct (SFcompare_defined _ _ Ha Hb) as [c E]. rewrite E.
  destruct c; reflexivity.
Qed.

(** Equal doubles are not ordered strictly. *)
Lemma eqb_not_ltb (a b : float) :
  (a =? b)%float = true -> (b <? a)%float = false.
Proof.
  rewrite FloatAxioms.eqb_spec, FloatAxioms.ltb_spec. unfold SFeqb, SFltb.
  rewrite (SFcompare_antisym (Prim2SF b) (Prim2SF a)).
  destruct (SFcompare (Prim2SF a) (Prim2SF b)) as [[| |]|];
    simpl; congruence.
Qed.

End Binary64.

(** ** Conjunctions *)

Lemma fold_andb_false (checks : list bool) : fold_left andb checks false = false.
Proof. induction checks as [|c checks IH]; simpl; auto. Qed.

Lemma fold_andb_acc (checks : list bool) (acc : bool) :
  fold_left andb checks acc = acc && conjunction checks.
Proof.
  unfold conjunction. destruct acc; simpl; auto using fold_andb_false.
Qed.

Lemma conjunction_cons (c : bool) (checks : list bool) :
  conjunction (c :: checks) = c && conjunction checks.
Proof. unfold conjunction at 1. simpl. apply fold_andb_acc. Qed.

Lemma conjunction_forallb (checks : list bool) :
  conjunction checks = forallb (fun c => c) checks.
Proof.
  induction checks as [|c checks IH]; [reflexivity|].
  rewrite conjunction_cons, IH. reflexivity.
Qed.

(** The conjunction does not depend on the order of the checks. *)
Lemma conjunction_Permutation (l l' : list bool) :
  Permutation l l' -> conjunction l = conjunction l'.
Proof.
  induction 1 as [|c l l' _ IH|c d l|l l' l'' _ IH1 _ IH2].
  - reflexivity.
  - rewrite !conjunction_cons, IH. reflexivity.
  - rewrite !conjunction_cons. destruct c, d; reflexivity.
  - congruence.
Qed.

Lemma conjunction_idempotent (b : bool) (checks : list bool) :
  (b && conjunction checks) && conjunction checks = b && conjunction checks.
Proof. destruct b, (conjunction checks); reflexivity. Qed.

(** ** PrettyTest: the member functions *)

Section PrettyTestMembers.
Context {S : Type}.
Implicit Types (self : PrettyTest.t S) (w : world) (b : PrettyTest.body S).

Lemma check_eq condition location self w :
  PrettyTest.check condition location self w
  = (Normal condition,
     PrettyTest.set_result_ (PrettyTest.result_ self && condition) self,
     after_check condition location w).
Proof. destruct condition; reflexivity. Qed.

Lemma equals_printable_eq {First Second : Type}
    `{EqualityComparable First Second} `{Printable First} `{Printable Second}
    `{TypeName First} `{TypeName Second}
    (first : First) (second : Second) location self w :
  exists w',
    PrettyTest.equals_printable first second location self w
    = (Normal (equal_to first second),
       PrettyTest.set_result_
         (PrettyTest.result_ self && equal_to first second) self,
       w').
Proof.
  unfold PrettyTest.equals_printable, bind. rewrite check_eq.
  destruct (equal_to first second); simpl; unfold ret; eauto.
Qed.

Lemma float_equals_eq (x y error : float) location self w :
  exists w',
    PrettyTest.float_equals x y error location self w
    = (Normal (abs (x - y) <? error)%float,
       PrettyTest.set_result_
         (PrettyTest.result_ self && (abs (x - y) <? error)%float) self,
       w').
Proof.
  unfold PrettyTest.float_equals, bind. rewrite check_eq.
  destruct (abs (x - y) <? error)%float; simpl; unfold ret; eauto.
Qed.

(** One call of the function object: it ends as [ending] says, leaves the
    captured state [captures_left], and [result_] is the old [result_]
    and-ed with every condition it handed to [check]. *)
Lemma exec_eq b : forall self w,
  exists w',
    PrettyTest.exec b self w
    = (PrettyTest.ending b,
       PrettyTest.set_captures (PrettyTest.captures_left b)
         (PrettyTest.set_result_
            (PrettyTest.result_ self
             && conjunction (PrettyTest.conditions b)) self),
       w').
Proof.
  induction b as [s|e s|c l k IH|l k IH|F G eq pf ps nf ns x y l k IH
                 |F G eq x y l k IH|x y err l k IH]; intros self w.
  - exists w. simpl. unfold modify. rewrite andb_true_r. reflexivity.
  - exists w. simpl. unfold modify, bind, throw.
    rewrite andb_true_r. reflexivity.
  - simpl. unfold bind. rewrite check_eq.
    destruct (IH c (PrettyTest.set_result_ (PrettyTest.result_ self && c) self)
                (after_check c l w)) as [w' E].
    exists w'. rewrite E, conjunction_cons, andb_assoc. reflexivity.
  - simpl. unfold bind, PrettyTest.fail. rewrite check_eq.
    destruct (IH false
                (PrettyTest.set_result_ (PrettyTest.result_ self && false) self)
                (after_check false l w)) as [w' E].
    exists w'. rewrite E, conjunction_cons, andb_assoc. reflexivity.
  - simpl. unfold bind.
    destruct (equals_printable_eq x y l self w) as [w1 E1]. rewrite E1.
    destruct (IH (equal_to x y)
                (PrettyTest.set_result_
                   (PrettyTest.result_ self && equal_to x y) self) w1)
      as [w' E].
    exists w'. rewrite E, conjunction_cons, andb_assoc. reflexivity.
  - simpl. unfold bind, PrettyTest.equals. rewrite check_eq.
    destruct (IH (equal_to x y)
                (PrettyTest.set_result_
                   (PrettyTest.result_ self && equal_to x y) self)
                (after_check (equal_to x y) l w)) as [w' E].
    exists w'. rewrite E, conjunction_cons, andb_assoc. reflexivity.
  - simpl. unfold bind.
    destruct (float_equals_eq x y err l self w) as [w1 E1]. rewrite E1.
    destruct (IH (abs (x - y) <? err)%float
                (PrettyTest.set_result_
                   (PrettyTest.result_ self && (abs (x - y) <? err)%float)
                   self) w1) as [w' E].
    exists w'. rewrite E, conjunction_cons, andb_assoc. reflexivity.
Qed.

(** [doTest]: the object it leaves, and what it returns. *)
Lemma doTest_eq self w :
  exists w',
    let self' :=
      PrettyTest.set_captures
        (PrettyTest.captures_left (PrettyTest.next_call self))
        (PrettyTest.set_result_
           (PrettyTest.result_ self
            && conjunction (PrettyTest.conditions (PrettyTest.next_call self)))
           self) in
    PrettyTest.doTest self w
    = (match PrettyTest.ending (PrettyTest.next_call self) with
       | Normal _ => Normal (PrettyTest.result_ self')
       | Raised e => Raised e
       end, self', w').
Proof.
  unfold PrettyTest.doTest, bind, gets.
  destruct (exec_eq (PrettyTest.next_call self) self w) as [w' E].
  exists w'. unfold PrettyTest.next_call in *. rewrite E.
  destruct (PrettyTest.ending _) as [[]|e]; reflexivity.
Qed.

End PrettyTestMembers.

(** C1. A [PrettyTest] as constructed ([result_] is [true]) whose function
    object hands a sequence of conditions to [check] and returns normally:
    [doTest] returns the conjunction of those conditions, taken in any
    order. *)
Theorem doTest_conjunction_of_checks :
  forall (S : Type) (name : string) (f : PrettyTest.Functor S) (w : world)
         (checks : list bool),
    PrettyTest.ending (PrettyTest.operator_call f (PrettyTest.captures f))
    = Normal tt ->
    Permutation checks
      (PrettyTest.conditions
         (PrettyTest.operator_call f (PrettyTest.captures f))) ->
    completion_of (PrettyTest.doTest (make_pretty_test name f) w)
    = Normal (conjunction checks).
Proof.
  intros S name f w checks Hend Hperm.
  destruct (doTest_eq (make_pretty_test name f) w) as [w' E].
  cbv zeta in E. rewrite E. unfold completion_of, PrettyTest.next_call. simpl.
  rewrite Hend. simpl. f_equal. symmetry. apply conjunction_Permutation, Hperm.
Qed.

(** The checks [true, false, true] of the specification, read in another
    order, give [false]. *)
Lemma doTest_conjunction_of_checks_witness :
  completion_of
    (PrettyTest.doTest (make_pretty_test "empty & clear" Example.three_checks)
       Example.startup)
  = Normal (conjunction [false; true; true]).
Proof.
  apply doTest_conjunction_of_checks.
  - reflexivity.
  - simpl. apply perm_swap.
Defined.

(** C8. [equals(a, b)] is [check(a == b)]: the unconstrained overload is
    that call itself, and the [Printable] overload returns the same [bool]
    and leaves the same test object (so the same [result_]); both return
    [a == b] and and it into [result_]. *)
Theorem equals_is_check :
  forall (S First Second : Type)
         (eq : EqualityComparable First Second)
         (pf : Printable First) (ps : Printable Second)
         (nf : TypeName First) (ns : TypeName Second)
         (a : First) (b : Second) (location : source_location)
         (self : PrettyTest.t S) (w : world),
    let checked := PrettyTest.check (equal_to a b) location self w in
    let plain := PrettyTest.equals a b location self w in
    let printable := PrettyTest.equals_printable a b location self w in
    plain = checked
    /\ completion_of printable = completion_of checked
    /\ object_of printable = object_of checked
    /\ completion_of checked = Normal (equal_to a b)
    /\ PrettyTest.result_ (object_of checked)
       = PrettyTest.result_ self && equal_to a b.
Proof.
  intros S First Second eq pf ps nf ns a b location self w. cbv zeta.
  destruct (equals_printable_eq a b location self w) as [w' E].
  rewrite E. unfold PrettyTest.equals. rewrite check_eq.
  repeat split.
Qed.

(** C7, for the build with [std::source_location]. [float_equals(x, y,
    error)] returns [abs(x - y) < error] and ands it into [result_]; the
    inequality is strict, so an [error] equal to the distance fails. *)
Theorem float_equals_strict :
  forall (S : Type) (x y error : float) (location : source_location)
         (self : PrettyTest.t S) (w : world),
    completion_of (PrettyTest.float_equals x y error location self w)
    = Normal (abs (x - y) <? error)%float
    /\ PrettyTest.result_
         (object_of (PrettyTest.float_equals x y error location self w))
       = PrettyTest.result_ self && (abs (x - y) <? error)%float
    /\ completion_of
         (PrettyTest.float_equals x y (abs (x - y)) location self w)
       = Normal false.
Proof.
  intros S x y error location self w.
  destruct (float_equals_eq x y error location self w) as [w1 E1].
  destruct (float_equals_eq x y (abs (x - y)) location self w) as [w2 E2].
  rewrite E1, E2, ltb_irrefl. repeat split.
Qed.

(** ** Test::operator() *)

Section TestCall.
Context {T : Type} {D : Test.Derived T}.

(** The call operator, by the way [doTest] completes. *)
Lemma call_eq (self : T) (w : world) :
  Test.call self w
  = match Test.doTest self (printed [test_banner (Test.name_ self)] w) with
    | (Normal res, self', w1) =>
        (Normal res, self', printed [verdict_banner res] w1)
    | (Raised e, self', w1) =>
        (Normal false, self',
         printed [caught_line e; verdict_banner false] w1)
    end.
Proof.
  unfold Test.call, bind, gets, print, try_catch, printed. simpl.
  destruct (Test.doTest self _) as [[[res|e] self'] w1]; [reflexivity|].
  destruct e; simpl; unfold bind, print, ret; simpl;
    rewrite <- app_assoc; reflexivity.
Qed.

Lemma call_normal (self : T) (w : world) :
  exists res self' w', Test.call self w = (Normal res, self', w').
Proof.
  rewrite call_eq.
  destruct (Test.doTest self _) as [[[res|e] self'] w1]; eauto.
Qed.

Lemma call_raised (self : T) (w : world) (e : exception) :
  completion_of
    (Test.doTest self (printed [test_banner (Test.name_ self)] w))
  = Raised e ->
  completion_of (Test.call self w) = Normal false
  /\ cout (world_of (Test.call self w))
     = cout (world_of
               (Test.doTest self
                  (printed [test_banner (Test.name_ self)] w)))
       ++ [caught_line e; verdict_banner false].
Proof.
  rewrite call_eq.
  destruct (Test.doTest self _) as [[[res|e'] self'] w1];
    unfold completion_of; simpl; intros E; inversion E; subst; auto.
Qed.

End TestCall.

Lemma call_ptr_normal (test : Test.ptr) (w : world) :
  exists res test' w', Test.call_ptr test w = (Normal res, test', w').
Proof.
  unfold Test.call_ptr.
  destruct (@call_normal _ (Test.vtable test) (Test.pointee test) w)
    as (res & obj & w' & E).
  rewrite E. eauto.
Qed.

(** ** SimpleTest and TimedTest *)

Lemma SimpleTest_doTest_eq {S : Type} (self : SimpleTest.t S) (w : world) :
  completion_of (SimpleTest.doTest self w)
  = fst (SimpleTest.operator_call (SimpleTest.f_ self)
           (SimpleTest.captures (SimpleTest.f_ self)))
  /\ world_of (SimpleTest.doTest self w) = w.
Proof.
  unfold SimpleTest.doTest, SimpleTest.call_f, completion_of, world_of.
  destruct (SimpleTest.operator_call _ _) as [c s]. auto.
Qed.

Section TimedTestMembers.
Context {H : Host} {Parent : Type} {D : Test.Derived Parent}.

(** [doTest] of a timed test, by the way the parent's [doTest]
    completes: the second reading of the clock and both output statements
    come after the parent's call. *)
Lemma TimedTest_doTest_eq (self : TimedTest.t Parent) (w : world) :
  TimedTest.doTest self w
  = match Test.doTest (TimedTest.parent self) (clock_read w) with
    | (Normal result, p, w1) =>
        let ms := TimedTest.execution_ms (std_clock (clock_calls w))
                    (std_clock (clock_calls w1)) in
        (Normal (if (TimedTest.max_runtime_ self <? ms)%float
                 then false else result),
         TimedTest.set_parent p self,
         printed (timing_lines (TimedTest.max_runtime_ self) ms)
           (clock_read w1))
    | (Raised e, p, w1) => (Raised e, TimedTest.set_parent p self, w1)
    end.
Proof.
  unfold TimedTest.doTest, bind, clock, within, clock_read, print, gets.
  simpl.
  destruct (Test.doTest (TimedTest.parent self) _) as [[[result|e] p] w1];
    [|reflexivity].
  simpl. unfold timing_lines, printed.
  destruct (_ <? _)%float; simpl; unfold bind, print, ret; simpl;
    try rewrite <- app_assoc; reflexivity.
Qed.

End TimedTestMembers.

(** A throwing function object makes [doTest] throw, in every world. *)
Lemma functor_raises_doTest {H : Host} (e : exception) (T : Type)
    (D : Test.Derived T) (self : T) :
  functor_raises e D self ->
  forall w, completion_of (Test.doTest self w) = Raised e.
Proof.
  induction 1 as [S self s E|S self E|Parent D self _ IH]; intros w.
  - simpl. rewrite (proj1 (SimpleTest_doTest_eq self w)), E. reflexivity.
  - simpl. destruct (doTest_eq self w) as [w' E']. cbv zeta in E'.
    rewrite E', E. reflexivity.
  - simpl. rewrite TimedTest_doTest_eq. specialize (IH (clock_read w)).
    destruct (Test.doTest (TimedTest.parent self) _) as [[[result|e'] p] w1];
      unfold completion_of in *; simpl in *; congruence.
Qed.

(** C2. Whatever class derives from [Test], the call operator of a test
    returns normally: nothing thrown by [doTest] leaves it. When the
    function object of a [SimpleTest], a [PrettyTest] or a [TimedTest] of
    either throws, with a message or without one, the call returns [false]
    and the console ends with the line of the handler and the failure
    banner. *)
Theorem errors_stop_at_the_test :
  forall (H : Host),
    (forall (T : Type) (D : Test.Derived T) (self : T) (w : world),
        exists res self' w', Test.call self w = (Normal res, self', w'))
    /\ (forall (T : Type) (D : Test.Derived T) (self : T) (e : exception)
               (w : world),
           functor_raises e D self ->
           completion_of (Test.call self w) = Normal false
           /\ exists console,
                cout (world_of (Test.call self w))
                = console ++ [caught_line e; verdict_banner false]).
Proof.
  intros H. split.
  - intros T D self w. apply call_normal.
  - intros T D self e w Hraises.
    destruct (call_raised self w (e := e)) as [Hres Hout].
    + apply functor_raises_doTest, Hraises.
    + split; [exact Hres|]. eexists. exact Hout.
Qed.

(** A timed [PrettyTest] whose function object throws something that is
    not a [std::exception]. *)
Lemma errors_stop_at_the_test_witness :
  completion_of
    (@Test.call _ (@TimedTest.derived Example.steady _ _)
       (make_timed_test (make_pretty_test "throws" Example.check_then_throw))
       Example.startup)
  = Normal false
  /\ exists console,
       cout (world_of
               (@Test.call _ (@TimedTest.derived Example.steady _ _)
                  (make_timed_test
                     (make_pretty_test "throws" Example.check_then_throw))
                  Example.startup))
       = console ++ [caught_line other_exception; verdict_banner false].
Proof.
  apply (proj2 (errors_stop_at_the_test Example.steady)).
  apply timed_raises, pretty_raises. reflexivity.
Defined.

(** Every double that is a number is at most [infinity]. *)
Lemma leb_infinity (x : float) :
  is_nan x = false -> (x <=? infinity)%float = true.
Proof.
  intros Hx. apply is_nan_false in Hx. revert Hx.
  rewrite FloatAxioms.leb_spec. unfold SFleb.
  replace (Prim2SF infinity) with (S754_infinity false) by reflexivity.
  destruct (Prim2SF x) as [s|s| |s m e]; simpl; try destruct s;
    auto; discriminate.
Qed.

(** C4. A timed test whose parent's [doTest] returned [result]. The
    measured time is [double(finish - start) * 1000.0 / CLOCKS_PER_SEC],
    [start] being the reading of [std::clock()] taken before the parent's
    [doTest] and [finish] the one taken after it. With a limit and a
    measured time that are numbers, [doTest] returns [result] and-ed with
    [measured time <= max_runtime_]; a time equal to the limit passes; the
    timing changes the result only when the time is strictly greater than
    the limit, and then the result is [false]; and a timed test made
    without a limit has the limit [infinity], which no measured time
    exceeds. *)
Theorem timed_result_within_limit :
  forall (H : Host) (Parent : Type) (D : Test.Derived Parent)
         (self : TimedTest.t Parent) (w : world)
         (result : bool) (p : Parent) (w1 : world),
    Test.doTest (TimedTest.parent self) (clock_read w) = (Normal result, p, w1) ->
    let start := std_clock (clock_calls w) in
    let finish := std_clock (clock_calls w1) in
    let ms := (clock_to_double (clock_minus finish start) * 1000
               / clock_to_double CLOCKS_PER_SEC)%float in
    let limit := TimedTest.max_runtime_ self in
    is_nan limit = false ->
    is_nan ms = false ->
    completion_of (TimedTest.doTest self w)
    = Normal (result && (ms <=? limit)%float)
    /\ ((ms =? limit)%float = true ->
        completion_of (TimedTest.doTest self w) = Normal result)
    /\ (completion_of (TimedTest.doTest self w) <> Normal result ->
        (limit <? ms)%float = true)
    /\ ((limit <? ms)%float = true ->
        completion_of (TimedTest.doTest self w) = Normal false)
    /\ TimedTest.max_runtime_ (make_timed_test (TimedTest.parent self))
       = infinity
    /\ (limit = infinity ->
        completion_of (TimedTest.doTest self w) = Normal result).
Proof.
  intros H Parent D self w result p w1 Hparent start finish ms limit
    Hlimit Hms.
  assert (E : completion_of (TimedTest.doTest self w)
              = Normal (if (limit <? ms)%float then false else result)).
  { rewrite TimedTest_doTest_eq, Hparent. reflexivity. }
  rewrite E. clear E.
  pose proof (@not_ltb_is_leb ms limit Hms Hlimit) as Hle.
  repeat split.
  - rewrite <- Hle. destruct (limit <? ms)%float, result; reflexivity.
  - intros Heq. rewrite (@eqb_not_ltb ms limit Heq). reflexivity.
  - destruct (limit <? ms)%float; congruence.
  - intros Hlt. rewrite Hlt. reflexivity.
  - intros Hinf.
    assert (L : (ms <=? limit)%float = true)
      by (rewrite Hinf; apply leb_infinity, Hms).
    rewrite <- Hle in L.
    destruct (limit <? ms)%float; [discriminate|reflexivity].
Qed.

(** The passing test of the example, timed with a limit of one
    microsecond on a host whose two readings of the clock are 0 and 2000,
    with a million clocks per second: the measured time is 2 milliseconds,
    the limit a thousandth of one, and the timed test fails. *)
Lemma timed_result_within_limit_witness :
  completion_of
    (@TimedTest.doTest Example.steady _ _
       (make_timed_test_limit 1
          (make_simple_test "math works" Example.math_works))
       Example.startup)
  = Normal (true && (2 <=? 0x1.0624dd2f1a9fcp-10)%float).
Proof.
  refine (proj1 (@timed_result_within_limit Example.steady _ _
                   (make_timed_test_limit 1
                      (make_simple_test "math works" Example.math_works))
                   Example.startup true
                   (make_simple_test "math works" Example.math_works)
                   (clock_read Example.startup) _ _ _));
    reflexivity.
Defined.

(** A limit of zero milliseconds: on a clock too coarse to see the test
    run the measured time is zero and the test passes; once the clock
    shows two milliseconds the same test fails. *)
Lemma zero_limit_on_two_hosts :
  result_of
    (@Test.call _ (@TimedTest.derived Example.coarse _ _)
       (make_timed_test_limit 0
          (make_simple_test "math works" Example.math_works))
       Example.startup)
  = true
  /\ result_of
       (@Test.call _ (@TimedTest.derived Example.steady _ _)
          (make_timed_test_limit 0
             (make_simple_test "math works" Example.math_works))
          Example.startup)
     = false.
Proof. split; reflexivity. Qed.

(** C9, as the header has it. When the parent's [doTest] returns, the timed
    test adds to the console the elapsed-time line and, exactly when
    [max_runtime_ < execution_ms], the line of the exceeded limit. When the
    parent's [doTest] throws, the timed test throws the same and adds
    nothing: the world is the one the parent left. *)
Theorem timed_output :
  forall (H : Host) (Parent : Type) (D : Test.Derived Parent)
         (self : TimedTest.t Parent) (w : world),
    match Test.doTest (TimedTest.parent self) (clock_read w) with
    | (Normal _, _, w1) =>
        let ms := TimedTest.execution_ms (std_clock (clock_calls w))
                    (std_clock (clock_calls w1)) in
        let limit := TimedTest.max_runtime_ self in
        cout (world_of (TimedTest.doTest self w))
        = cout w1 ++ finished_in ms
                       :: (if (limit <? ms)%float then [slower_than limit]
                           else [])
    | (Raised e, _, w1) =>
        completion_of (TimedTest.doTest self w) = Raised e
        /\ world_of (TimedTest.doTest self w) = w1
    end.
Proof.
  intros H Parent D self w. rewrite TimedTest_doTest_eq.
  destruct (Test.doTest (TimedTest.parent self) _) as [[[result|e] p] w1].
  - reflexivity.
  - split; reflexivity.
Qed.

(** C9 fails for a timed test whose function object throws: the console
    holds the banner, the handler's line and the failure banner, and no
    elapsed-time line. *)
Lemma timed_exception_reports_no_time :
  ~ reports_elapsed_time
      (world_of
         (@Test.call _ (@TimedTest.derived Example.steady _ _)
            (make_timed_test
               (make_simple_test "exception" Example.exception_thrown))
            Example.startup)).
Proof.
  intros [ms Hin]. vm_compute in Hin.
  repeat (destruct Hin as [Hin|Hin]; [discriminate|]). exact Hin.
Qed.

(** ** TestGroup *)

Lemma failures_cons (result : bool) (results : list bool) :
  failures (result :: results)
  = (if negb result then 1 else 0) + failures results.
Proof. destruct result; reflexivity. Qed.

(** The loop of [run] visits the tests as [each_once] does, and counts the
    results that are [false]. *)
Lemma for_each_eq (tests : list Test.ptr) :
  forall (errors : nat) (w : world),
    TestGroup.for_each tests errors w
    = (Normal (errors + failures (fst (fst (each_once tests w)))),
       snd (fst (each_once tests w)),
       snd (each_once tests w)).
Proof.
  induction tests as [|test rest IH]; intros errors w; simpl.
  - rewrite Nat.add_0_r. reflexivity.
  - destruct (call_ptr_normal test w) as (res & test' & w1 & E).
    rewrite E. unfold world_of, object_of, result_of. simpl.
    rewrite IH.
    destruct (each_once rest w1) as [[results rest'] w2]. simpl.
    rewrite failures_cons.
    destruct res; simpl; repeat f_equal; lia.
Qed.

Lemma each_once_length (tests : list Test.ptr) :
  forall w : world,
    List.length (fst (fst (each_once tests w))) = List.length tests
    /\ List.length (snd (fst (each_once tests w))) = List.length tests.
Proof.
  induction tests as [|test rest IH]; intros w; simpl; [auto|].
  specialize (IH (world_of (Test.call_ptr test w))).
  destruct (each_once rest _) as [[results rest'] w2]. simpl in *.
  destruct IH as [IH1 IH2]. rewrite IH1, IH2. auto.
Qed.

(** C3. [run] prints the banner of the group and then calls every test of
    the group once, in the order of [tests_], whatever the earlier results
    were ([each_once]: as many results as tests). It returns [true] exactly
    when the number of [false] results is zero, and only otherwise prints
    the two summary lines, the second with that number and the number of
    tests. *)
Theorem run_counts_failures :
  forall (g : TestGroup.t) (w : world),
    let ran := each_once (TestGroup.tests_ g)
                 (printed [running_group (TestGroup.name_ g)] w) in
    let results := fst (fst ran) in
    let errors := failures results in
    List.length results = List.length (TestGroup.tests_ g)
    /\ TestGroup.run g w
       = (Normal (Nat.eqb errors 0),
          TestGroup.set_tests_ (snd (fst ran)) g,
          if Nat.eqb errors 0 then snd ran
          else printed [group_failed;
                        failed_tests errors (List.length (TestGroup.tests_ g))]
                 (snd ran))
    /\ (result_of (TestGroup.run g w) = true <-> errors = 0).
Proof.
  intros g w ran results errors.
  assert (Erun : TestGroup.run g w
       = (Normal (Nat.eqb errors 0),
          TestGroup.set_tests_ (snd (fst ran)) g,
          if Nat.eqb errors 0 then snd ran
          else printed [group_failed;
                        failed_tests errors (List.length (TestGroup.tests_ g))]
                 (snd ran))).
  { unfold TestGroup.run, bind, gets, print, within. simpl.
    rewrite for_each_eq. fold (printed [running_group (TestGroup.name_ g)] w).
    fold ran. fold results. simpl. fold errors.
    destruct (Nat.eqb errors 0); simpl; [reflexivity|].
    unfold bind, print, gets, ret, printed. simpl.
    pose proof (proj2 (each_once_length (TestGroup.tests_ g)
                         (printed [running_group (TestGroup.name_ g)] w)))
      as Hlen.
    fold ran in Hlen. rewrite Hlen.
    rewrite <- app_assoc. reflexivity. }
  split; [apply each_once_length|]. split; [exact Erun|].
  rewrite Erun. simpl. apply Nat.eqb_eq.
Qed.

(** The example of the specification: of three tests one fails; [run]
    returns [false] and the summary reads 1/3. *)
Lemma one_of_three_fails :
  result_of (TestGroup.run Example.one_of_three Example.startup) = false
  /\ last (cout (world_of (TestGroup.run Example.one_of_three Example.startup)))
          group_failed
     = failed_tests 1 3.
Proof. split; reflexivity. Qed.

(** C10. A group without tests: [run] returns [true], leaves the group as
    it is and prints the banner of the group and nothing else. *)
Theorem run_empty_group :
  forall (name : string) (w : world),
    TestGroup.tests_ (TestGroup.ctor_name name) = []
    /\ TestGroup.run (TestGroup.ctor_name name) w
       = (Normal true, TestGroup.ctor_name name,
          printed [running_group name] w).
Proof. intros name w. split; reflexivity. Qed.

(** C5, as the header has it. The variadic constructor first delegates to
    the constructor for the remaining tests and only then adds its first
    test, so [tests_] holds the tests in the reverse of the order in which
    they were given. *)
Theorem ctor_stores_in_reverse :
  forall (name : string) (tests : list Test.ptr),
    TestGroup.tests_ (TestGroup.ctor name tests) = rev tests
    /\ TestGroup.name_ (TestGroup.ctor name tests) = name.
Proof.
  intros name tests. induction tests as [|first other [IH1 IH2]]; simpl.
  - auto.
  - rewrite IH1, IH2. auto.
Qed.

(** The first group of the example program is given "math works" and then
    "exception", and runs "exception" first. *)
Lemma test_group_1_runs_backwards :
  banners (cout (world_of (TestGroup.run Example.test_group_1 Example.startup)))
  = ["exception"; "math works"]%string.
Proof. reflexivity. Qed.

(** ** Running a PrettyTest again *)

(** The call operator on a [PrettyTest]: its result and the object it
    leaves, whatever the world. *)
Lemma PrettyTest_call_eq {S : Type} (self : PrettyTest.t S) (w : world) :
  result_of (Test.call self w)
  = match PrettyTest.ending (PrettyTest.next_call self) with
    | Normal _ =>
        PrettyTest.result_ self
        && conjunction (PrettyTest.conditions (PrettyTest.next_call self))
    | Raised _ => false
    end
  /\ object_of (Test.call self w)
     = PrettyTest.set_captures
         (PrettyTest.captures_left (PrettyTest.next_call self))
         (PrettyTest.set_result_
            (PrettyTest.result_ self
             && conjunction (PrettyTest.conditions (PrettyTest.next_call self)))
            self).
Proof.
  rewrite call_eq.
  generalize (printed [test_banner (Test.name_ self)] w). intros w0.
  change (@Test.doTest _ (PrettyTest.derived S)) with (@PrettyTest.doTest S).
  destruct (doTest_eq self w0) as [w' E].
  cbv zeta in E. rewrite E.
  destruct (PrettyTest.ending _) as [[]|e]; split; reflexivity.
Qed.

(** C6 fails for a test whose only check fails in the first run and holds
    in the second: the second run returns normally, all of its checks hold,
    and it still fails, on the [result_] the first run left. *)
Lemma warms_up_keeps_failing :
  ~ fresh_recorder_each_run (make_pretty_test "warms up" Example.warms_up).
Proof.
  intros Hfresh. specialize (Hfresh Example.startup). cbv zeta in Hfresh.
  specialize (Hfresh eq_refl). vm_compute in Hfresh. discriminate Hfresh.
Qed.

(** * Further properties *)

(** ** type_name *)

Section StringViews.
Local Open Scope string_scope.

Lemma string_length_app (s t : string) :
  String.length (s ++ t) = String.length s + String.length t.
Proof. induction s as [|c s IH]; simpl; auto. Qed.

Lemma substring_whole (s t : string) :
  substring 0 (String.length s) (s ++ t) = s.
Proof.
  induction s as [|c s IH]; simpl.
  - destruct t; reflexivity.
  - rewrite IH. reflexivity.
Qed.

Lemma substring_skip (p s : string) (n : nat) :
  substring (String.length p) n (p ++ s) = substring 0 n s.
Proof. induction p as [|c p IH]; simpl; auto. Qed.

Lemma remove_prefix_app (p s : string) :
  TypeNameOf.remove_prefix (String.length p) (p ++ s) = s.
Proof.
  unfold TypeNameOf.remove_prefix.
  rewrite substring_skip, string_length_app.
  replace (String.length p + String.length s - String.length p)
    with (String.length s) by lia.
  clear p. induction s as [|c s IH]; simpl; congruence.
Qed.

Lemma remove_suffix_app (s t : string) :
  TypeNameOf.remove_suffix (String.length t) (s ++ t) = s.
Proof.
  unfold TypeNameOf.remove_suffix. rewrite string_length_app.
  replace (String.length s + String.length t - String.length t)
    with (String.length s) by lia.
  apply substring_whole.
Qed.

(** X1. [type_name] cuts by length. Under one of the three compilers, when
    the text of [__PRETTY_FUNCTION__] is the spelling of [T] between
    something as long as the expected prefix and something as long as the
    expected suffix, the result is that spelling, whatever the text cut
    off says. *)
Theorem type_name_cuts_by_length :
  forall (c : compiler) (before T after : string),
    c <> other_compiler ->
    String.length before = String.length (TypeNameOf.prefix c) ->
    String.length after = String.length (TypeNameOf.suffix c) ->
    TypeNameOf.type_name c (before ++ T ++ after) = T.
Proof.
  intros c before T after Hc Hbefore Hafter. unfold TypeNameOf.type_name.
  rewrite <- Hbefore, <- Hafter.
  destruct c; try congruence;
    rewrite remove_prefix_app; apply remove_suffix_app.
Qed.

(** The text the GCC branch expects for [T = int]. *)
Lemma type_name_cuts_by_length_witness :
  TypeNameOf.type_name gnu
    ("constexpr auto type_name() [with T = " ++ "int" ++ "]")
  = "int".
Proof.
  apply (@type_name_cuts_by_length gnu
           "constexpr auto type_name() [with T = " "int" "]");
    [discriminate | reflexivity | reflexivity].
Defined.

End StringViews.

(** ** What a run writes to the console *)

Lemma banners_app (l l' : list output) :
  banners (l ++ l') = banners l ++ banners l'.
Proof.
  induction l as [|o l IH]; simpl; [reflexivity|].
  destruct o; simpl; rewrite ?IH; reflexivity.
Qed.

Lemma reported_app (l l' : list output) :
  reported (l ++ l') = reported l + reported l'.
Proof.
  induction l as [|o l IH]; simpl; [reflexivity|].
  destruct o; simpl; rewrite ?IH; reflexivity.
Qed.

Section PrettyTestConsole.
Context {S : Type}.
Implicit Types (self : PrettyTest.t S) (w : world) (b : PrettyTest.body S).

Lemma check_world condition location self w :
  PrettyTest.check condition location self w
  = (Normal condition,
     PrettyTest.set_result_ (PrettyTest.result_ self && condition) self,
     diagnosed condition [condition_false location] w).
Proof. destruct condition; reflexivity. Qed.

Lemma equals_printable_world {First Second : Type}
    `{EqualityComparable First Second} `{Printable First} `{Printable Second}
    `{TypeName First} `{TypeName Second}
    (first : First) (second : Second) location self w :
  PrettyTest.equals_printable first second location self w
  = (Normal (equal_to first second),
     PrettyTest.set_result_
       (PrettyTest.result_ self && equal_to first second) self,
     diagnosed (equal_to first second)
       [condition_false location;
        not_equal (inserted first) (type_name First)
                  (inserted second) (type_name Second)] w).
Proof.
  unfold PrettyTest.equals_printable, bind. rewrite check_world.
  destruct (equal_to first second); simpl; unfold ret, printed; simpl;
    rewrite <- ?app_assoc; reflexivity.
Qed.

Lemma float_equals_world (x y error : float) location self w :
  PrettyTest.float_equals x y error location self w
  = (Normal (abs (x - y) <? error)%float,
     PrettyTest.set_result_
       (PrettyTest.result_ self && (abs (x - y) <? error)%float) self,
     diagnosed (abs (x - y) <? error)%float
       [condition_false location; float_not_equal x y error] w).
Proof.
  unfold PrettyTest.float_equals, bind. rewrite check_world.
  destruct (abs (x - y) <? error)%float; simpl; unfold ret, printed; simpl;
    rewrite <- ?app_assoc; reflexivity.
Qed.

(** What one more call of a checking member function adds to the lines of
    the calls that follow it. *)
Lemma console_step (c : bool) (ls : list output) w (w' : world)
    (rest : list bool) (lines' : list output) :
  reported ls = 1 -> banners ls = [] ->
  cout w' = cout (diagnosed c ls w) ++ lines' ->
  clock_calls w' = clock_calls (diagnosed c ls w) ->
  reported lines' = List.length (filter negb rest) ->
  banners lines' = [] ->
  (conjunction rest = true -> lines' = []) ->
  exists lines,
    cout w' = cout w ++ lines
    /\ clock_calls w' = clock_calls w
    /\ reported lines = List.length (filter negb (c :: rest))
    /\ banners lines = []
    /\ (conjunction (c :: rest) = true -> lines = []).
Proof.
  intros Hls Hbs Hc Hk Hr Hb Hall. destruct c; simpl in *.
  - exists lines'. rewrite conjunction_cons. simpl. auto.
  - exists (ls ++ lines'). rewrite Hc, <- app_assoc, reported_app, banners_app.
    rewrite Hls, Hbs, Hr, Hb, conjunction_cons. simpl.
    repeat split; auto. discriminate.
Qed.

Lemma exec_console b : forall self w,
  exists lines,
    cout (world_of (PrettyTest.exec b self w)) = cout w ++ lines
    /\ clock_calls (world_of (PrettyTest.exec b self w)) = clock_calls w
    /\ reported lines = List.length (filter negb (PrettyTest.conditions b))
    /\ banners lines = []
    /\ (conjunction (PrettyTest.conditions b) = true -> lines = []).
Proof.
  induction b as [s|e s|c l k IH|l k IH|F G eq pf ps nf ns x y l k IH
                 |F G eq x y l k IH|x y err l k IH]; intros self w.
  - exists []. simpl. rewrite app_nil_r. repeat split; auto.
  - exists []. simpl. unfold bind, modify, throw. simpl.
    rewrite app_nil_r. repeat split; auto.
  - cbn [PrettyTest.exec PrettyTest.conditions]. unfold bind. rewrite check_world.
    destruct (IH c (PrettyTest.set_result_ (PrettyTest.result_ self && c) self)
                (diagnosed c [condition_false l] w))
      as (lines' & Hc & Hk & Hr & Hb & Hall).
    eapply (@console_step _ ([condition_false l])); eauto.
  - cbn [PrettyTest.exec PrettyTest.conditions]. unfold bind, PrettyTest.fail. rewrite check_world.
    destruct (IH false
                (PrettyTest.set_result_ (PrettyTest.result_ self && false) self)
                (diagnosed false [condition_false l] w))
      as (lines' & Hc & Hk & Hr & Hb & Hall).
    eapply (@console_step _ ([condition_false l])); eauto.
  - cbn [PrettyTest.exec PrettyTest.conditions]. unfold bind. rewrite equals_printable_world.
    destruct (IH (equal_to x y)
                (PrettyTest.set_result_
                   (PrettyTest.result_ self && equal_to x y) self)
                (diagnosed (equal_to x y)
                   [condition_false l;
                    not_equal (inserted x) (type_name F)
                              (inserted y) (type_name G)] w))
      as (lines' & Hc & Hk & Hr & Hb & Hall).
    eapply (@console_step _ ([condition_false l; not_equal (inserted x) (type_name F) (inserted y) (type_name G)])); eauto.
  - cbn [PrettyTest.exec PrettyTest.conditions]. unfold bind, PrettyTest.equals. rewrite check_world.
    destruct (IH (equal_to x y)
                (PrettyTest.set_result_
                   (PrettyTest.result_ self && equal_to x y) self)
                (diagnosed (equal_to x y) [condition_false l] w))
      as (lines' & Hc & Hk & Hr & Hb & Hall).
    eapply (@console_step _ ([condition_false l])); eauto.
  - cbn [PrettyTest.exec PrettyTest.conditions]. unfold bind. rewrite float_equals_world.
    destruct (IH (abs (x - y) <? err)%float
                (PrettyTest.set_result_
                   (PrettyTest.result_ self && (abs (x - y) <? err)%float)
                   self)
                (diagnosed (abs (x - y) <? err)%float
                   [condition_false l; float_not_equal x y err] w))
      as (lines' & Hc & Hk & Hr & Hb & Hall).
    eapply (@console_step _ ([condition_false l; float_not_equal x y err])); eauto.
Qed.

Lemma doTest_world self w :
  world_of (PrettyTest.doTest self w)
  = world_of (PrettyTest.exec (PrettyTest.next_call self) self w).
Proof.
  unfold PrettyTest.doTest, bind, gets, PrettyTest.next_call.
  destruct (PrettyTest.exec _ self w) as [[[[]|e] self'] w']; reflexivity.
Qed.

End PrettyTestConsole.

(** X4. The checking member functions write to the console only when
    their condition is false, and never read the clock. Each returns its
    condition and ands it into [result_]. A call whose condition holds
    leaves the world as it was. A failing [check], [fail] or unconstrained
    [equals] adds the line with the location; a failing [equals] on
    printable operands adds that line and then the two operands with the
    names of their types; a failing [float_equals] adds that line and then
    the two values and the epsilon. *)
Theorem checks_print_only_on_failure :
  forall (S : Type) (self : PrettyTest.t S) (w : world)
         (location : source_location),
    (forall condition : bool,
        PrettyTest.check condition location self w
        = (Normal condition,
           PrettyTest.set_result_ (PrettyTest.result_ self && condition) self,
           if condition then w
           else printed [condition_false location] w))
    /\ PrettyTest.fail location self w
       = (Normal false,
          PrettyTest.set_result_ false self,
          printed [condition_false location] w)
    /\ (forall (First Second : Type) (eq : EqualityComparable First Second)
               (a : First) (b : Second),
           PrettyTest.equals a b location self w
           = (Normal (equal_to a b),
              PrettyTest.set_result_
                (PrettyTest.result_ self && equal_to a b) self,
              if equal_to a b then w
              else printed [condition_false location] w))
    /\ (forall (First Second : Type) (eq : EqualityComparable First Second)
               (pf : Printable First) (ps : Printable Second)
               (nf : TypeName First) (ns : TypeName Second)
               (a : First) (b : Second),
           PrettyTest.equals_printable a b location self w
           = (Normal (equal_to a b),
              PrettyTest.set_result_
                (PrettyTest.result_ self && equal_to a b) self,
              if equal_to a b then w
              else printed [condition_false location;
                            not_equal (inserted a) (type_name First)
                                      (inserted b) (type_name Second)] w))
    /\ (forall x y error : float,
           PrettyTest.float_equals x y error location self w
           = (Normal (abs (x - y) <? error)%float,
              PrettyTest.set_result_
                (PrettyTest.result_ self && (abs (x - y) <? error)%float) self,
              if (abs (x - y) <? error)%float then w
              else printed [condition_false location;
                            float_not_equal x y error] w)).
Proof.
  intros S self w location. repeat split.
  - intros condition. apply check_world.
  - unfold PrettyTest.fail. rewrite check_world, andb_false_r. reflexivity.
  - intros First Second eq a b. unfold PrettyTest.equals. apply check_world.
  - intros First Second eq pf ps nf ns a b. apply equals_printable_world.
  - intros x y error. apply float_equals_world.
Qed.

(** X5. A [PrettyTest], fresh or not, passes exactly when [result_] was [true]
    before the run, the function object returns normally and every
    condition it hands to [check] is true. *)
Theorem PrettyTest_passes_iff :
  forall (S : Type) (self : PrettyTest.t S) (w : world),
    result_of (Test.call self w) = true
    <-> PrettyTest.result_ self = true
        /\ PrettyTest.ending (PrettyTest.next_call self) = Normal tt
        /\ Forall (fun condition => condition = true)
             (PrettyTest.conditions (PrettyTest.next_call self)).
Proof.
  intros S self w. rewrite (proj1 (PrettyTest_call_eq self w)).
  rewrite Forall_forall.
  destruct (PrettyTest.ending _) as [[]|e].
  - rewrite andb_true_iff, conjunction_forallb, forallb_forall. tauto.
  - split; [discriminate|]. intros (_ & E & _). discriminate E.
Qed.

(** With function objects as embedded here, the three classes of the
    header only add lines, and no test banner. *)
Lemma SimpleTest_appends (S : Type) : appends (SimpleTest.derived S).
Proof.
  intros self w. exists []. simpl.
  rewrite (proj2 (SimpleTest_doTest_eq self w)), app_nil_r. auto.
Qed.

Lemma PrettyTest_appends (S : Type) : appends (PrettyTest.derived S).
Proof.
  intros self w. simpl. rewrite doTest_world.
  destruct (exec_console (PrettyTest.next_call self) self w)
    as (lines & Hc & _ & _ & Hb & _).
  exists lines. auto.
Qed.

Lemma TimedTest_appends {H : Host} (Parent : Type) (D : Test.Derived Parent) :
  appends D -> appends (@TimedTest.derived H Parent D).
Proof.
  intros HD self w. simpl. rewrite TimedTest_doTest_eq.
  destruct (HD (TimedTest.parent self) (clock_read w)) as (lines & Hc & Hb).
  destruct (Test.doTest (TimedTest.parent self) _) as [[[result|e] p] w1];
    unfold world_of in *; simpl in *.
  - exists (lines ++ timing_lines (TimedTest.max_runtime_ self)
                       (TimedTest.execution_ms (std_clock (clock_calls w))
                          (std_clock (clock_calls w1)))).
    rewrite Hc, <- app_assoc, banners_app, Hb. split; [reflexivity|].
    unfold timing_lines. destruct (_ <? _)%float; reflexivity.
  - exists lines. auto.
Qed.

(** The console and the result of a call, for a class whose [doTest] only
    adds lines. *)
Lemma call_console :
  forall (T : Type) (D : Test.Derived T) (self : T) (w : world),
    appends D ->
    result_of (Test.call self w)
    = result_of (Test.doTest self (printed [test_banner (Test.name_ self)] w))
    /\ exists lines : list output,
         cout (world_of (Test.call self w))
         = cout w
             ++ test_banner (Test.name_ self)
                  :: lines ++ [verdict_banner (result_of (Test.call self w))]
         /\ banners lines = [].
Proof.
  intros T D self w HD. rewrite call_eq.
  destruct (HD self (printed [test_banner (Test.name_ self)] w))
    as (lines & Hc & Hb).
  destruct (Test.doTest self _) as [[[res|e] self'] w1];
    unfold world_of in *; simpl in *; (split; [reflexivity|]).
  - exists lines. rewrite Hc, <- !app_assoc. auto.
  - exists (lines ++ [caught_line e]).
    rewrite Hc, <- !app_assoc, banners_app, Hb. simpl.
    split; [reflexivity|]. destruct e; reflexivity.
Qed.



(** X3. The result of running a [SimpleTest] is what the function object
    returned, or [false] when it threw; the last line on the console is
    the verdict banner of that result; the test keeps its name and call
    operator and holds the captured state the call left. *)
Theorem SimpleTest_call_result :
  forall (S : Type) (self : SimpleTest.t S) (w : world),
    let f := SimpleTest.f_ self in
    let outcome := SimpleTest.operator_call f (SimpleTest.captures f) in
    result_of (Test.call self w)
    = match fst outcome with
      | Normal b => b
      | Raised _ => false
      end
    /\ object_of (Test.call self w)
       = SimpleTest.ctor (SimpleTest.name_ self)
           {| SimpleTest.captures := snd outcome;
              SimpleTest.operator_call := SimpleTest.operator_call f |}
    /\ exists console : list output,
         cout (world_of (Test.call self w))
         = console ++ [verdict_banner (result_of (Test.call self w))].
Proof.
  intros S self w f outcome. rewrite call_eq. simpl.
  unfold SimpleTest.doTest, SimpleTest.call_f. fold f. fold outcome.
  destruct outcome as [[b|e] s]; unfold object_of, world_of; simpl;
    repeat split.
  - eexists. reflexivity.
  - exists (cout w ++ [test_banner (SimpleTest.name_ self); caught_line e]).
    rewrite <- !app_assoc. reflexivity.
Qed.

(** ** TimedTest: further properties *)

(** A NaN is less than nothing. *)
Lemma nan_not_ltb (x y : float) : is_nan x = true -> (x <? y)%float = false.
Proof.
  intros Hx. rewrite FloatAxioms.ltb_spec.
  unfold is_nan in Hx. rewrite FloatAxioms.eqb_spec in Hx. unfold SFeqb in Hx.
  destruct (Prim2SF x) as [s|s| |s m e]; simpl in *.
  - discriminate.
  - destruct s; discriminate.
  - reflexivity.
  - destruct s; rewrite Z.compare_refl, Pos.compare_cont_refl in Hx;
      discriminate.
Qed.

(** X6. Timing never turns a failure into a success: a timed test returns
    [true] only if its parent's [doTest] returned [true] and the measured
    time did not exceed the limit; and it throws exactly what its parent's
    [doTest] throws. *)
Theorem timing_never_rescues :
  forall (H : Host) (Parent : Type) (D : Test.Derived Parent)
         (self : TimedTest.t Parent) (w : world),
    let inner := Test.doTest (TimedTest.parent self) (clock_read w) in
    let ms := TimedTest.execution_ms (std_clock (clock_calls w))
                (std_clock (clock_calls (world_of inner))) in
    (completion_of (TimedTest.doTest self w) = Normal true
     <-> completion_of inner = Normal true
         /\ (TimedTest.max_runtime_ self <? ms)%float = false)
    /\ (forall e : exception,
           completion_of (TimedTest.doTest self w) = Raised e
           <-> completion_of inner = Raised e).
Proof.
  intros H Parent D self w inner ms. subst ms inner.
  rewrite TimedTest_doTest_eq.
  destruct (Test.doTest (TimedTest.parent self) _) as [[[result|e] p] w1];
    unfold completion_of, world_of; simpl.
  - split.
    + destruct (_ <? _)%float, result; intuition congruence.
    + intros e. split; discriminate.
  - split.
    + split; [discriminate|]. intros [A _]. discriminate A.
    + intros e'. tauto.
Qed.

(** X7. A limit that is NaN switches the timing off: the comparison
    [max_runtime_ < execution_ms] is false whatever the time, so the timed
    test returns what its parent's [doTest] returned and prints the
    elapsed-time line only. *)
Theorem nan_limit_never_fails :
  forall (H : Host) (Parent : Type) (D : Test.Derived Parent)
         (self : TimedTest.t Parent) (w : world)
         (result : bool) (p : Parent) (w1 : world),
    is_nan (TimedTest.max_runtime_ self) = true ->
    Test.doTest (TimedTest.parent self) (clock_read w) = (Normal result, p, w1) ->
    completion_of (TimedTest.doTest self w) = Normal result
    /\ cout (world_of (TimedTest.doTest self w))
       = cout w1
           ++ [finished_in
                 (TimedTest.execution_ms (std_clock (clock_calls w))
                    (std_clock (clock_calls w1)))].
Proof.
  intros H Parent D self w result p w1 Hnan Hparent.
  rewrite TimedTest_doTest_eq, Hparent. cbv zeta. unfold timing_lines.
  rewrite (@nan_not_ltb (TimedTest.max_runtime_ self) _ Hnan).
  split; reflexivity.
Qed.

(** The failing test of the example, which never passes, under a NaN
    limit. *)
Lemma nan_limit_never_fails_witness :
  completion_of
    (@TimedTest.doTest Example.steady _ _
       (TimedTest.ctor nan (make_simple_test "never" Example.never))
       Example.startup)
  = Normal false
  /\ cout (world_of
             (@TimedTest.doTest Example.steady _ _
                (TimedTest.ctor nan (make_simple_test "never" Example.never))
                Example.startup))
     = cout (clock_read Example.startup)
         ++ [finished_in
               (@TimedTest.execution_ms Example.steady
                  (@std_clock Example.steady 0)
                  (@std_clock Example.steady 1))].
Proof.
  apply (@nan_limit_never_fails Example.steady _ _
           (TimedTest.ctor nan (make_simple_test "never" Example.never))
           Example.startup false
           (make_simple_test "never" Example.never)
           (clock_read Example.startup));
    reflexivity.
Defined.

(** ** Doubles that are numbers *)

Section NeverNaN.

Lemma shr_1_nonneg (mrs : shr_record) :
  (0 <= shr_m mrs)%Z -> (0 <= shr_m (shr_1 mrs))%Z.
Proof.
  destruct mrs as [m r s]. simpl.
  destruct m as [|[p|p|]|p]; simpl; lia.
Qed.

Lemma iter_shr_1_nonneg (p : positive) :
  forall mrs, (0 <= shr_m mrs)%Z -> (0 <= shr_m (iter_pos shr_1 p mrs))%Z.
Proof.
  induction p as [p IH|p IH|]; intros mrs Hm; simpl.
  - apply IH, IH, shr_1_nonneg, Hm.
  - apply IH, IH, Hm.
  - apply shr_1_nonneg, Hm.
Qed.

Lemma shr_fexp_nonneg (m e : Z) (l : location) :
  (0 <= m)%Z -> (0 <= shr_m (fst (shr_fexp prec emax m e l)))%Z.
Proof.
  intros Hm. unfold shr_fexp, shr.
  assert (H0 : (0 <= shr_m (shr_record_of_loc m l))%Z)
    by (destruct l as [|[| |]]; exact Hm).
  destruct (_ - e)%Z; simpl; auto using iter_shr_1_nonneg.
Qed.

Lemma round_nearest_even_nonneg (m : Z) (l : location) :
  (0 <= m)%Z -> (0 <= round_nearest_even m l)%Z.
Proof.
  intros Hm. destruct l as [|[| |]]; simpl; try lia.
  destruct (Z.even m); lia.
Qed.

(** Rounding a mantissa that is not negative never yields NaN. *)
Lemma binary_round_aux_number (sx : bool) (m e : Z) (l : location) :
  (0 <= m)%Z -> is_number (binary_round_aux prec emax sx m e l) = true.
Proof.
  intros Hm. unfold binary_round_aux.
  pose proof (@shr_fexp_nonneg m e l Hm) as H1.
  destruct (shr_fexp prec emax m e l) as [mrs' e']. simpl in H1.
  pose proof (@shr_fexp_nonneg _ e' loc_Exact
                (@round_nearest_even_nonneg _ (loc_of_shr_record mrs') H1))
    as H2.
  destruct (shr_fexp prec emax _ e' loc_Exact) as [mrs'' e'']. simpl in H2.
  destruct (shr_m mrs''); [reflexivity| |lia].
  destruct (_ <=? _)%Z; reflexivity.
Qed.

Lemma binary_round_number (sx : bool) (m : positive) (e : Z) :
  is_number (binary_round prec emax sx m e) = true.
Proof.
  unfold binary_round. destruct (shl_align _ _ _) as [mz ez].
  apply binary_round_aux_number. lia.
Qed.

Lemma binary_normalize_number (m e : Z) (szero : bool) :
  is_number (binary_normalize prec emax m e szero) = true.
Proof. destruct m; simpl; auto using binary_round_number. Qed.

Lemma Prim2SF_number (x : float) :
  is_number (Prim2SF x) = negb (is_nan x).
Proof.
  unfold Prim2SF. destruct (is_nan x); [reflexivity|]. simpl.
  destruct (is_zero x); [reflexivity|].
  destruct (is_infinity x); [reflexivity|].
  destruct (Z.frexp x) as [r exp].
  destruct (shr_fexp _ _ _ _ _) as [shr e'].
  destruct (shr_m shr); reflexivity.
Qed.

Lemma is_nan_number (x : float) :
  is_nan x = false <-> is_number (Prim2SF x) = true.
Proof.
  rewrite Prim2SF_number. destruct (is_nan x); simpl; intuition congruence.
Qed.

Lemma SFldexp_number (x : spec_float) (e : Z) :
  is_number x = true -> is_number (SFldexp prec emax x e) = true.
Proof. destruct x; simpl; auto using binary_round_number. Qed.

Lemma SFopp_number (x : spec_float) : is_number (SFopp x) = is_number x.
Proof. destruct x; reflexivity. Qed.

Lemma SF2Prim_number (x : spec_float) :
  is_number x = true -> is_nan (SF2Prim x) = false.
Proof.
  intros Hx.
  destruct x as [[|]|[|]| |s m e]; try reflexivity; try discriminate.
  unfold SF2Prim. apply is_nan_number.
  assert (L : is_number
                (Prim2SF (Z.ldexp (of_uint63 (Uint63.of_Z (Z.pos m))) e))
              = true).
  { unfold Z.ldexp. rewrite ldshiftexp_spec. apply SFldexp_number.
    rewrite of_uint63_spec. apply binary_normalize_number. }
  destruct s; [rewrite opp_spec, SFopp_number|]; exact L.
Qed.

(** The conversion of an integer to [double] is never NaN. *)
Lemma double_of_Z_number (n : Z) : is_nan (double_of_Z n) = false.
Proof. apply SF2Prim_number, binary_normalize_number. Qed.

Lemma SFmul_number (x y : spec_float) :
  is_number x = true ->
  (exists s m e, y = S754_finite s m e) ->
  is_number (SFmul prec emax x y) = true.
Proof.
  intros Hx (s & m & e & ->).
  destruct x as [sx|sx| |sx mx ex]; simpl; try reflexivity; try discriminate.
  apply binary_round_aux_number. lia.
Qed.

Lemma SFdiv_number (x y : spec_float) :
  is_number x = true ->
  (exists s m e, y = S754_finite s m e) ->
  is_number (SFdiv prec emax x y) = true.
Proof.
  intros Hx (s & m & e & ->).
  destruct x as [sx|sx| |sx mx ex]; simpl; try reflexivity; try discriminate.
  unfold SFdiv_core_binary.
  set (shift := (ex - e - _)%Z).
  set (m' := match shift with
             | 0%Z => Z.pos mx
             | Z.pos _ => Z.shiftl (Z.pos mx) shift
             | Z.neg _ => 0%Z
             end).
  assert (Hm' : (0 <= m')%Z).
  { subst m'. destruct shift; try lia. apply Z.shiftl_nonneg. lia. }
  pose proof (Z.div_pos m' (Z.pos m) Hm' eq_refl) as Hq.
  unfold Z.div in Hq.
  destruct (Z.div_eucl m' (Z.pos m)) as [q r]. simpl in Hq.
  apply binary_round_aux_number, Hq.
Qed.

Lemma finite_nonzero_finite (x : float) :
  finite_nonzero x = true -> exists s m e, Prim2SF x = S754_finite s m e.
Proof.
  unfold finite_nonzero. destruct (Prim2SF x); try discriminate. eauto.
Qed.

(** A product or quotient of a number by a finite double other than zero
    is a number. *)
Lemma mul_number (x y : float) :
  is_nan x = false -> finite_nonzero y = true -> is_nan (x * y)%float = false.
Proof.
  intros Hx Hy. apply is_nan_number. rewrite mul_spec.
  apply SFmul_number; [apply is_nan_number, Hx|apply finite_nonzero_finite, Hy].
Qed.

Lemma div_number (x y : float) :
  is_nan x = false -> finite_nonzero y = true -> is_nan (x / y)%float = false.
Proof.
  intros Hx Hy. apply is_nan_number. rewrite div_spec.
  apply SFdiv_number; [apply is_nan_number, Hx|apply finite_nonzero_finite, Hy].
Qed.

End NeverNaN.

Lemma execution_ms_number {H : Host} (start finish : clock_t) :
  regular H -> is_nan (TimedTest.execution_ms start finish) = false.
Proof.
  intros [Hclock Hcps]. unfold TimedTest.execution_ms.
  apply div_number; [|exact Hcps].
  apply mul_number; [apply Hclock|reflexivity].
Qed.

Lemma posix_regular (readings : nat -> Z) : regular (Example.posix readings).
Proof. split; [intros t; apply double_of_Z_number|reflexivity]. Qed.

Lemma microsecond_limit_number (Parent : Type) (actual : Parent)
    (time_limit : Z) :
  is_nan (TimedTest.max_runtime_ (make_timed_test_limit time_limit actual))
  = false.
Proof.
  simpl. apply mul_number; [apply double_of_Z_number|reflexivity].
Qed.

(** X8. [make_timed_test] with a count of microseconds stores the limit
    [double(count) * 1e-3], in milliseconds: a thousand microseconds give
    the limit 1, one microsecond gives the double nearest to a thousandth,
    none gives 0; and whatever the count, the limit is a number. Without a
    count the limit is [infinity]. Either way the test wrapped is the one
    given. *)
Theorem factory_limit_is_a_number :
  forall (Parent : Type) (actual : Parent) (time_limit : Z),
    TimedTest.max_runtime_ (make_timed_test_limit time_limit actual)
    = (double_of_Z time_limit * 0x1.0624dd2f1a9fcp-10)%float
    /\ is_nan (TimedTest.max_runtime_ (make_timed_test_limit time_limit actual))
       = false
    /\ TimedTest.max_runtime_ (make_timed_test_limit 1000 actual) = 1%float
    /\ TimedTest.max_runtime_ (make_timed_test_limit 1 actual)
       = 0x1.0624dd2f1a9fcp-10%float
    /\ TimedTest.max_runtime_ (make_timed_test_limit 0 actual) = 0%float
    /\ TimedTest.parent (make_timed_test_limit time_limit actual) = actual
    /\ TimedTest.max_runtime_ (make_timed_test actual) = infinity
    /\ TimedTest.parent (make_timed_test actual) = actual.
Proof.
  intros Parent actual time_limit. repeat split.
  apply microsecond_limit_number.
Qed.

(** X9. On a regular host the measured time is a number, so for a timed test
    made by [make_timed_test], with a count of microseconds or without,
    [doTest] returns the parent's result and-ed with [execution_ms <=
    max_runtime_], with no condition on the values involved. *)
Theorem factory_timed_result :
  forall (H : Host) (Parent : Type) (D : Test.Derived Parent)
         (actual : Parent) (time_limit : option Z) (w : world)
         (result : bool) (p : Parent) (w1 : world),
    regular H ->
    Test.doTest actual (clock_read w) = (Normal result, p, w1) ->
    let self := match time_limit with
                | Some count => make_timed_test_limit count actual
                | None => make_timed_test actual
                end in
    let ms := TimedTest.execution_ms (std_clock (clock_calls w))
                (std_clock (clock_calls w1)) in
    completion_of (TimedTest.doTest self w)
    = Normal (result && (ms <=? TimedTest.max_runtime_ self)%float).
Proof.
  intros H Parent D actual time_limit w result p w1 Hreg Hparent self ms.
  assert (Hlimit : is_nan (TimedTest.max_runtime_ self) = false).
  { subst self. destruct time_limit as [count|]; [|reflexivity].
    apply microsecond_limit_number. }
  assert (Hparent' : Test.doTest (TimedTest.parent self) (clock_read w)
                     = (Normal result, p, w1))
    by (subst self; destruct time_limit; exact Hparent).
  pose proof (@execution_ms_number H (std_clock (clock_calls w))
                (std_clock (clock_calls w1)) Hreg) as Hms.
  fold ms in Hms.
  rewrite TimedTest_doTest_eq, Hparent'. unfold completion_of. simpl.
  fold ms. rewrite <- (@not_ltb_is_leb ms _ Hms Hlimit).
  destruct (_ <? _)%float, result; reflexivity.
Qed.

(** The passing test of the example with a limit of one microsecond, on a
    host where it takes two milliseconds. *)
Lemma factory_timed_result_witness :
  completion_of
    (@TimedTest.doTest Example.steady _ _
       (make_timed_test_limit 1
          (make_simple_test "math works" Example.math_works))
       Example.startup)
  = Normal (true
            && (@TimedTest.execution_ms Example.steady
                  (@std_clock Example.steady 0) (@std_clock Example.steady 1)
                <=? TimedTest.max_runtime_
                      (make_timed_test_limit 1
                         (make_simple_test "math works" Example.math_works)))%float).
Proof.
  exact (@factory_timed_result Example.steady _ _
           (make_simple_test "math works" Example.math_works) (Some 1%Z)
           Example.startup true
           (make_simple_test "math works" Example.math_works)
           (clock_read Example.startup)
           (posix_regular _) eq_refl).
Defined.

(** ** TestGroup: further properties *)

(** [run], by the results of its tests. *)
Lemma run_eq (g : TestGroup.t) (w : world) :
  let ran := each_once (TestGroup.tests_ g)
               (printed [running_group (TestGroup.name_ g)] w) in
  let errors := failures (fst (fst ran)) in
  TestGroup.run g w
  = (Normal (Nat.eqb errors 0),
     TestGroup.set_tests_ (snd (fst ran)) g,
     if Nat.eqb errors 0 then snd ran
     else printed [group_failed;
                   failed_tests errors (List.length (TestGroup.tests_ g))]
            (snd ran)).
Proof.
  intros ran errors.
  unfold TestGroup.run, bind, gets, print, within. simpl.
  rewrite for_each_eq. fold (printed [running_group (TestGroup.name_ g)] w).
  fold ran. simpl. fold errors.
  destruct (Nat.eqb errors 0); simpl; [reflexivity|].
  unfold bind, print, gets, ret, printed. simpl.
  pose proof (proj2 (each_once_length (TestGroup.tests_ g)
                       (printed [running_group (TestGroup.name_ g)] w)))
    as Hlen.
  fold ran in Hlen. rewrite Hlen.
  rewrite <- app_assoc. reflexivity.
Qed.

Lemma failures_le_length (results : list bool) :
  failures results <= List.length results.
Proof. unfold failures. apply filter_length_le. Qed.

Lemma added_tests (tests : list Test.ptr) :
  forall g : TestGroup.t,
    TestGroup.tests_
      (fold_left (fun group test => TestGroup.add test group) tests g)
    = TestGroup.tests_ g ++ tests
    /\ TestGroup.name_
         (fold_left (fun group test => TestGroup.add test group) tests g)
       = TestGroup.name_ g.
Proof.
  induction tests as [|test tests IH]; intros g; simpl.
  - rewrite app_nil_r. auto.
  - destruct (IH (TestGroup.add test g)) as [IH1 IH2].
    rewrite IH1, IH2. simpl. rewrite <- app_assoc. auto.
Qed.

(** X10. Tests handed to a group by calls of [add] are kept in the order of the
    calls, after the tests the group already has; and the variadic
    constructor builds what adding its tests from the last to the first
    would. *)
Theorem add_keeps_the_order_of_calls :
  forall (name : string) (tests : list Test.ptr) (g : TestGroup.t),
    TestGroup.tests_
      (fold_left (fun group test => TestGroup.add test group) tests g)
    = TestGroup.tests_ g ++ tests
    /\ TestGroup.tests_ (added name tests) = tests
    /\ TestGroup.ctor name tests = added name (rev tests).
Proof.
  intros name tests g. split; [apply added_tests|].
  split; [apply (added_tests tests (TestGroup.ctor_name name))|].
  induction tests as [|first other IH]; simpl; [reflexivity|].
  unfold added in *. rewrite fold_left_app. simpl. rewrite IH. reflexivity.
Qed.

(** X11. [run] returns normally, keeps the name of the group and the number of
    its tests, and counts at most as many failures as the group has
    tests. *)
Theorem run_keeps_the_group :
  forall (g : TestGroup.t) (w : world),
    let results :=
      fst (fst (each_once (TestGroup.tests_ g)
                  (printed [running_group (TestGroup.name_ g)] w))) in
    completion_of (TestGroup.run g w) = Normal (Nat.eqb (failures results) 0)
    /\ TestGroup.name_ (object_of (TestGroup.run g w)) = TestGroup.name_ g
    /\ List.length (TestGroup.tests_ (object_of (TestGroup.run g w)))
       = List.length (TestGroup.tests_ g)
    /\ failures results <= List.length (TestGroup.tests_ g).
Proof.
  intros g w results. rewrite run_eq. unfold completion_of, object_of. simpl.
  pose proof (each_once_length (TestGroup.tests_ g)
                (printed [running_group (TestGroup.name_ g)] w)) as [L1 L2].
  repeat split; auto.
  subst results. rewrite <- L1. apply failures_le_length.
Qed.

Lemma call_ptr_world (test : Test.ptr) (w : world) :
  world_of (Test.call_ptr test w)
  = world_of (@Test.call _ (Test.vtable test) (Test.pointee test) w)
  /\ result_of (Test.call_ptr test w)
     = result_of (@Test.call _ (Test.vtable test) (Test.pointee test) w).
Proof.
  unfold Test.call_ptr.
  destruct (@Test.call _ (Test.vtable test) (Test.pointee test) w)
    as [[c obj] w'].
  destruct c; auto.
Qed.

Lemma each_once_banners (tests : list Test.ptr) :
  Forall ptr_appends tests ->
  forall w : world,
    banners (cout (snd (each_once tests w)))
    = banners (cout w) ++ map ptr_name tests.
Proof.
  induction 1 as [|test rest Htest _ IH]; intros w; simpl.
  - rewrite app_nil_r. reflexivity.
  - specialize (IH (world_of (Test.call_ptr test w))).
    destruct (each_once rest _) as [[results rest'] w']. simpl in *.
    rewrite IH, (proj1 (call_ptr_world test w)).
    destruct (@call_console _ (Test.vtable test) (Test.pointee test) w Htest)
      as (_ & lines & Hc & Hb).
    rewrite Hc, !banners_app. simpl. rewrite banners_app, Hb. simpl.
    rewrite <- app_assoc. reflexivity.
Qed.

(** X12. The banners of the tests of a group whose tests only add lines appear
    on the console in the order of [tests_], one for each test: that is
    the order in which [run] calls them. *)
Theorem run_banners_in_stored_order :
  forall (g : TestGroup.t) (w : world),
    Forall ptr_appends (TestGroup.tests_ g) ->
    banners (cout (world_of (TestGroup.run g w)))
    = banners (cout w) ++ map ptr_name (TestGroup.tests_ g).
Proof.
  intros g w Hg. rewrite run_eq. unfold world_of. cbv zeta.
  pose proof (@each_once_banners (TestGroup.tests_ g) Hg
                (printed [running_group (TestGroup.name_ g)] w)) as Hb.
  simpl in Hb. rewrite banners_app, app_nil_r in Hb.
  cbn [snd]. destruct (Nat.eqb _ 0); simpl.
  - exact Hb.
  - rewrite banners_app, Hb. simpl. rewrite app_nil_r. reflexivity.
Qed.

(** The first group of the example program, whose constructor was given
    "math works" before "exception". *)
Lemma run_banners_in_stored_order_witness :
  banners (cout (world_of (TestGroup.run Example.test_group_1 Example.startup)))
  = banners (cout Example.startup)
      ++ map ptr_name (TestGroup.tests_ Example.test_group_1).
Proof.
  apply run_banners_in_stored_order.
  repeat constructor; apply SimpleTest_appends.
Defined.

(** *** The order of the tests and the result of the group *)

Lemma each_once_steady (tests : list Test.ptr) (w0 : world) :
  Forall steady tests ->
  forall w : world,
    fst (fst (each_once tests w))
    = map (fun test => result_of (Test.call_ptr test w0)) tests.
Proof.
  induction 1 as [|test rest Htest _ IH]; intros w; simpl; [reflexivity|].
  specialize (IH (world_of (Test.call_ptr test w))).
  destruct (each_once rest _) as [[results rest'] w']. simpl in *.
  rewrite IH, (Htest w w0). reflexivity.
Qed.

Lemma failures_Permutation (l l' : list bool) :
  Permutation l l' -> failures l = failures l'.
Proof.
  induction 1 as [|c l l' _ IH|c d l|l l' l'' _ IH1 _ IH2].
  - reflexivity.
  - rewrite !failures_cons, IH. reflexivity.
  - rewrite !failures_cons. lia.
  - congruence.
Qed.

(** X13. For tests each of which returns the same result in whatever world
    it is called, the result of a group does not depend on the order of
    its tests, nor on its name or on the world it is run in. *)
Theorem group_result_ignores_order :
  forall (name name' : string) (tests tests' : list Test.ptr) (w w' : world),
    Forall steady tests ->
    Permutation tests tests' ->
    result_of (TestGroup.run (added name tests) w)
    = result_of (TestGroup.run (added name' tests') w').
Proof.
  intros name name' tests tests' w w' Hsteady Hperm.
  assert (Hsteady' : Forall steady tests')
    by (eapply Permutation_Forall; eassumption).
  rewrite !run_eq. unfold result_of. cbv zeta.
  destruct (added_tests tests (TestGroup.ctor_name name)) as [E _].
  destruct (added_tests tests' (TestGroup.ctor_name name')) as [E' _].
  fold (added name tests) in E. fold (added name' tests') in E'.
  simpl in E, E'. rewrite E, E'.
  rewrite (@each_once_steady tests w Hsteady),
          (@each_once_steady tests' w Hsteady').
  rewrite (failures_Permutation
             (Permutation_map (fun test => result_of (Test.call_ptr test w))
                Hperm)).
  reflexivity.
Qed.

(** The two tests of the first group of the example, in both orders. *)
Lemma group_result_ignores_order_witness :
  result_of
    (TestGroup.run
       (added "test group 1"
          [ as_test (make_simple_test "math works" Example.math_works);
            as_test (make_simple_test "exception" Example.exception_thrown) ])
       Example.startup)
  = result_of
      (TestGroup.run
         (added "test group 1"
            [ as_test (make_simple_test "exception" Example.exception_thrown);
              as_test (make_simple_test "math works" Example.math_works) ])
         Example.startup).
Proof.
  apply group_result_ignores_order.
  - repeat constructor; intros w w'; reflexivity.
  - apply perm_swap.
Defined.

(** ** main *)

Lemma for_each_group_eq (groups : list TestGroup.t) :
  forall (success : bool) (w : world),
    Driver.for_each_group groups success w
    = (Normal (success
               && forallb (fun r => r) (fst (fst (each_group_once groups w)))),
       snd (fst (each_group_once groups w)),
       snd (each_group_once groups w)).
Proof.
  induction groups as [|group rest IH]; intros success w; simpl.
  - rewrite andb_true_r. reflexivity.
  - pose proof (run_eq group w) as E. cbv zeta in E.
    unfold world_of, object_of, result_of. rewrite E. simpl.
    rewrite IH.
    destruct (each_group_once rest _) as [[results rest'] w2]. simpl.
    rewrite andb_assoc. reflexivity.
Qed.

Lemma each_group_once_length (groups : list TestGroup.t) :
  forall w : world,
    List.length (fst (fst (each_group_once groups w))) = List.length groups.
Proof.
  induction groups as [|group rest IH]; intros w; simpl; [auto|].
  specialize (IH (world_of (TestGroup.run group w))).
  destruct (each_group_once rest _) as [[results rest'] w2]. simpl in *.
  rewrite IH. reflexivity.
Qed.

(** X14. [main] runs every group of [all_tests] once, in order, also after a
    group has failed, and returns normally: with 0 when every group
    returned [true] and with 1 otherwise. *)
Theorem main_exit_code :
  forall (all_tests : list TestGroup.t) (w : world),
    let ran := each_group_once all_tests w in
    let results := fst (fst ran) in
    List.length results = List.length all_tests
    /\ Driver.main all_tests w
       = (Normal (if forallb (fun r => r) results then 0%Z else 1%Z),
          snd (fst ran), snd ran)
    /\ (completion_of (Driver.main all_tests w) = Normal 0%Z
        <-> Forall (fun r => r = true) results).
Proof.
  intros all_tests w ran results.
  assert (E : Driver.main all_tests w
              = (Normal (if forallb (fun r => r) results then 0%Z else 1%Z),
                 snd (fst ran), snd ran)).
  { unfold Driver.main, bind, ret. rewrite for_each_group_eq. reflexivity. }
  split; [apply each_group_once_length|]. split; [exact E|].
  rewrite E. unfold completion_of. simpl.
  rewrite Forall_forall, <- forallb_forall.
  destruct (forallb _ results); split; congruence.
Qed.

(** ** Running a test, and a group, again *)

Lemma call_ptr_as_test {T : Type} {D : Test.Derived T} (self : T) (w : world) :
  result_of (Test.call_ptr (as_test self) w) = result_of (Test.call self w)
  /\ object_of (Test.call_ptr (as_test self) w)
     = as_test (object_of (Test.call self w)).
Proof.
  unfold Test.call_ptr, as_test, object_of. simpl.
  destruct (Test.call self w) as [[[b|e] obj] w']; auto.
Qed.

(** A [PrettyTest] whose function object hands the same conditions to
    [check] and ends in the same way in a second run has the result of the
    first run in the second. *)
Lemma same_calls_same_result {S : Type} (self : PrettyTest.t S) (w w2 : world) :
  let again := object_of (Test.call self w) in
  PrettyTest.conditions (PrettyTest.next_call again)
  = PrettyTest.conditions (PrettyTest.next_call self) ->
  PrettyTest.ending (PrettyTest.next_call again)
  = PrettyTest.ending (PrettyTest.next_call self) ->
  result_of (Test.call again w2) = result_of (Test.call self w).
Proof.
  intros again Hconditions Hending.
  destruct (PrettyTest_call_eq self w) as [R1 O1].
  destruct (PrettyTest_call_eq again w2) as [R2 _].
  fold again in O1.
  assert (Hres : PrettyTest.result_ again
                 = PrettyTest.result_ self
                   && conjunction
                        (PrettyTest.conditions (PrettyTest.next_call self)))
    by (rewrite O1; reflexivity).
  rewrite R2, R1, Hconditions, Hending, Hres.
  destruct (PrettyTest.ending (PrettyTest.next_call self)); [|reflexivity].
  apply conjunction_idempotent.
Qed.

(** The tests a group is left with by one run give, in a second run, the
    results of the first, when each of them repeats its result. *)
Lemma each_once_again (tests : list Test.ptr) :
  Forall repeats tests ->
  forall w w' : world,
    fst (fst (each_once (snd (fst (each_once tests w))) w'))
    = fst (fst (each_once tests w)).
Proof.
  induction 1 as [|test rest Htest _ IH]; intros w w'; simpl; [reflexivity|].
  specialize (IH (world_of (Test.call_ptr test w))).
  destruct (each_once rest (world_of (Test.call_ptr test w)))
    as [[results rest'] w1].
  simpl in *.
  specialize (IH (world_of (Test.call_ptr (object_of (Test.call_ptr test w)) w'))).
  destruct (each_once rest' _) as [[results2 rest''] w2]. simpl in *.
  rewrite IH, (Htest w w'). reflexivity.
Qed.

(** C6, as the header has it. [result_] is a data member, set to [true]
    when the test is constructed and never again: after a run it holds the
    old value and-ed with the checks of that run, and a second run that
    returns normally yields that value and-ed with its own checks. So a
    test that has failed a check fails every later run, and a test whose
    function object hands the same conditions to [check] and ends in the
    same way in the second run as in the first has the same result in both
    (in every world: it repeats its result). A group all of whose tests
    repeat their results returns from a second [run], in any world, what it
    returned from the first. *)
Theorem result_persists_across_runs :
  (forall (S : Type) (self : PrettyTest.t S) (w w2 : world),
      let first := Test.call self w in
      let again := object_of first in
      let second := Test.call again w2 in
      PrettyTest.result_ again
      = PrettyTest.result_ self
        && conjunction (PrettyTest.conditions (PrettyTest.next_call self))
      /\ (PrettyTest.ending (PrettyTest.next_call again) = Normal tt ->
          result_of second
          = PrettyTest.result_ again
            && conjunction
                 (PrettyTest.conditions (PrettyTest.next_call again)))
      /\ (PrettyTest.result_ again = false -> result_of second = false)
      /\ (PrettyTest.conditions (PrettyTest.next_call again)
          = PrettyTest.conditions (PrettyTest.next_call self) ->
          PrettyTest.ending (PrettyTest.next_call again)
          = PrettyTest.ending (PrettyTest.next_call self) ->
          result_of second = result_of first))
  /\ (forall (S : Type) (self : PrettyTest.t S),
         (forall w : world,
             let again := object_of (Test.call self w) in
             PrettyTest.conditions (PrettyTest.next_call again)
             = PrettyTest.conditions (PrettyTest.next_call self)
             /\ PrettyTest.ending (PrettyTest.next_call again)
                = PrettyTest.ending (PrettyTest.next_call self)) ->
         repeats (as_test self))
  /\ (forall (g : TestGroup.t) (w w2 : world),
         Forall repeats (TestGroup.tests_ g) ->
         result_of (TestGroup.run (object_of (TestGroup.run g w)) w2)
         = result_of (TestGroup.run g w)).
Proof.
  split; [|split].
  - intros S self w w2 first again second.
    destruct (PrettyTest_call_eq self w) as [R1 O1].
    destruct (PrettyTest_call_eq again w2) as [R2 _].
    fold first in R1, O1. fold again in O1. fold second in R2.
    assert (Hres : PrettyTest.result_ again
                   = PrettyTest.result_ self
                     && conjunction
                          (PrettyTest.conditions (PrettyTest.next_call self)))
      by (rewrite O1; reflexivity).
    repeat split.
    + exact Hres.
    + intros Hend. rewrite R2, Hend. reflexivity.
    + intros Hfailed. rewrite R2, Hfailed.
      destruct (PrettyTest.ending (PrettyTest.next_call again)); reflexivity.
    + intros Hconditions Hending.
      apply (same_calls_same_result self w w2 Hconditions Hending).
  - intros S self Hsame w w'.
    destruct (call_ptr_as_test self w) as [R1 O1]. rewrite O1, R1.
    rewrite (proj1 (call_ptr_as_test _ w')).
    destruct (Hsame w) as [Hconditions Hending].
    apply (same_calls_same_result self w w' Hconditions Hending).
  - intros g w w2 Hrepeats.
    rewrite (run_eq (object_of (TestGroup.run g w)) w2).
    rewrite (run_eq g w). unfold result_of, object_of. cbn [fst snd].
    cbn [TestGroup.tests_ TestGroup.name_ TestGroup.set_tests_].
    rewrite (@each_once_again (TestGroup.tests_ g) Hrepeats). reflexivity.
Qed.

(** A test whose function object counts its runs and makes the same calls
    in each of them: its single check fails in the first run and in the
    second, and both runs fail. *)
Lemma result_persists_across_runs_witness :
  result_of
    (Test.call
       (object_of
          (Test.call (make_pretty_test "counts runs" Example.counts_runs)
             Example.startup))
       Example.startup)
  = result_of
      (Test.call (make_pretty_test "counts runs" Example.counts_runs)
         Example.startup).
Proof.
  apply (proj2 (proj2 (proj2
           (proj1 result_persists_across_runs _
              (make_pretty_test "counts runs" Example.counts_runs)
              Example.startup Example.startup))));
    reflexivity.
Defined.
